(** * qTox file-transfer widget: [src/filetransferinstance.cpp]

    A shallow embedding of [FileTransferInstance], the controller behind one
    file-transfer entry of the chat log, and the properties its
    specification states about it.

    Conventions of the embedding.
    - C++ integers are [Z] with the conversions written out ([to_int],
      [to_int64], [to_long], [to_ulonglong]).  [long] is 64 bits wide (LP64,
      the Linux and macOS builds).
    - [QString] and [QByteArray] are [string].
    - A method of the class is an [Action]: it maps the object to the updated
      object and the list of effects it performed, in program order (signals
      emitted, calls into [Core], log lines, dialogs, files touched).
    - What a method reads from outside the object (the clock, a file, the
      answers of the user to a dialog) is an explicit argument. *)

From Stdlib Require Import ZArith List String Ascii Bool Lia DecimalString DecimalN.
Import ListNotations.

Open Scope string_scope.
Open Scope Z_scope.

(** ** Machine integers *)

Module CInt.

(** Two's-complement reduction of [x] to a signed [w]-bit integer. *)
Definition wrap_signed (w : Z) (x : Z) : Z :=
  (x + 2 ^ (w - 1)) mod 2 ^ w - 2 ^ (w - 1).

Definition to_int (x : Z) : Z := wrap_signed 32 x.
Definition to_int64 (x : Z) : Z := wrap_signed 64 x.
Definition to_long (x : Z) : Z := wrap_signed 64 x.
Definition to_ulonglong (x : Z) : Z := x mod 2 ^ 64.
Definition to_uint (x : Z) : Z := x mod 2 ^ 32.

Definition in_int64 (x : Z) : Prop := - 2 ^ 63 <= x < 2 ^ 63.
Definition in_int (x : Z) : Prop := - 2 ^ 31 <= x < 2 ^ 31.

End CInt.
Import CInt.

(** ** The parts of Qt the widget computes with *)

Module Qt.

Definition QString := string.
Definition QByteArray := string.

Definition dquote : string := String (ascii_of_nat 34) EmptyString.
Definition nl : string := String (ascii_of_nat 10) EmptyString.

(** [QString::number] of a non-negative integer. *)
Definition number (n : Z) : string :=
  NilEmpty.string_of_uint (N.to_uint (Z.to_N n)).

(** A field of exactly two decimal digits, for [n] below 100. *)
Definition two_digits (n : Z) : string :=
  if n <? 10 then "0" ++ number n else number n.

(** The integer nearest to [num / den], halves going to the even one:
    the rounding of the conversions between integers, doubles and decimal
    text. *)
Definition round_half_even (num den : Z) : Z :=
  let q := num / den in
  let r := num mod den in
  if 2 * r <? den then q
  else if den <? 2 * r then q + 1
  else if Z.even q then q else q + 1.

(** The value of a 64-bit unsigned integer converted to [double]: 53
    significant bits are kept. *)
Definition to_double (n : Z) : Z :=
  if n <? 2 ^ 53 then n
  else let e := Z.log2 n - 52 in round_half_even n (2 ^ e) * 2 ^ e.

(** The number of hundredths [setNum(v,'f',2)] prints for [v = num/den]. *)
Definition hundredths (num den : Z) : Z := round_half_even (100 * num) den.

(** [QString().setNum(v, 'f', 2)] for the non-negative [v = num / den]. *)
Definition setNum_f2 (num den : Z) : string :=
  let h := hundredths num den in
  number (h / 100) ++ "." ++ two_digits (h mod 100).

(** [QDateTime]: milliseconds since the epoch. *)
Definition QDateTime := Z.

(** [a.secsTo(b)]: whole seconds from [a] to [b]. *)
Definition secsTo (a b : QDateTime) : Z := Z.quot (b - a) 1000.

(** [QTime]: seconds since midnight (the widget never uses a finer one). *)
Definition QTime := Z.

Definition QTime_hm (h m : Z) : QTime := h * 3600 + m * 60.

(** [QTime::addSecs]: the time wraps when it passes midnight. *)
Definition addSecs (t : QTime) (s : Z) : QTime := (t + s) mod 86400.

(** [QTime::toString("mm:ss")]. *)
Definition toString_mmss (t : QTime) : string :=
  two_digits ((t / 60) mod 60) ++ ":" ++ two_digits (t mod 60).

(** [QImage]: the null image, an image of the resource bundle, or the
    picture decoded from file contents and scaled to a height. *)
Inductive QImage : Type :=
| QImage_null
| QImage_resource (path : string)
| QImage_scaled (data : QByteArray) (height : Z).

Definition QImage_isNull (img : QImage) : bool :=
  match img with QImage_null => true | _ => false end.

End Qt.
Import Qt.

(** ** Byte-size formatting *)

Definition suffix : list string := ["B"; "kiB"; "MiB"; "GiB"; "TiB"].

(** [(int) (log(size) / log(1024))] for [size > 0]: the exponent [k] with
    [1024^k <= size < 1024^(k+1)].  The quotient of the two doubles truncates
    to this [k] for every size below [1024^4] and to at least 4 from there
    on, as long as [log] is accurate to the last place at the powers of 1024
    (glibc's is). *)
Definition log1024 (size : Z) : Z := Z.log2 size / 10.

(** The index into [suffix] that [getHumanReadableSize] computes. *)
Definition size_exp (size : Z) : Z :=
  if size =? 0 then 0
  else Z.min (log1024 size) (Z.of_nat (List.length suffix) - 1).

(** [FileTransferInstance::getHumanReadableSize(unsigned long long size)].
    [pow(1024, exp)] is a power of two, so the division of the doubles is
    exact. *)
Definition getHumanReadableSize (size : Z) : QString :=
  let exp := size_exp size in
  setNum_f2 (to_double size) (1024 ^ exp)
    ++ nth (Z.to_nat exp) suffix EmptyString.

(** ** Data model *)

(** [ToxFile::FileDirection]. *)
Inductive FileDirection : Type := SENDING | RECEIVING.

Definition FileDirection_eqb (a b : FileDirection) : bool :=
  match a, b with
  | SENDING, SENDING | RECEIVING, RECEIVING => true
  | _, _ => false
  end.

Module ToxFile.

(** The fields of [struct ToxFile] (declared in [core.h]) the widget reads.
    [file] stands for the open [QFile*]: what [readAll()] returns. *)
Record t : Type := mk {
  fileNum : Z;
  friendId : Z;
  fileName : QByteArray;
  filePath : QString;
  file : QByteArray;
  filesize : Z;
  direction : FileDirection
}.

End ToxFile.

Inductive TransfState : Type :=
  tsPending | tsProcessing | tsPaused | tsFinished | tsCanceled.

Definition TransfState_eqb (a b : TransfState) : bool :=
  match a, b with
  | tsPending, tsPending | tsProcessing, tsProcessing | tsPaused, tsPaused
  | tsFinished, tsFinished | tsCanceled, tsCanceled => true
  | _, _ => false
  end.

(** The object.  Every member the methods of the class read or write, and
    [coreConnected]: whether the signals of [Core] are still connected to the
    slots of this object, the part of the [QObject] connection table that
    [disconnect(Core::getInstance(),0,this,0)] clears. *)
Record FileTransferInstance : Type := mkFTI {
  id : Z;
  state : TransfState;
  direction : FileDirection;
  remotePaused : bool;
  filename : QString;
  savePath : QString;
  size : QString;
  speed : QString;
  eta : QString;
  lastUpdate : QDateTime;
  lastBytesSent : Z;
  fileNum : Z;
  friendId : Z;
  pic : QImage;
  coreConnected : bool
}.

Definition set_state (v : TransfState) (r : FileTransferInstance) :=
  mkFTI (id r) v (direction r) (remotePaused r) (filename r) (savePath r)
    (size r) (speed r) (eta r) (lastUpdate r) (lastBytesSent r) (fileNum r)
    (friendId r) (pic r) (coreConnected r).

Definition set_remotePaused (v : bool) (r : FileTransferInstance) :=
  mkFTI (id r) (state r) (direction r) v (filename r) (savePath r)
    (size r) (speed r) (eta r) (lastUpdate r) (lastBytesSent r) (fileNum r)
    (friendId r) (pic r) (coreConnected r).

Definition set_savePath (v : QString) (r : FileTransferInstance) :=
  mkFTI (id r) (state r) (direction r) (remotePaused r) (filename r) v
    (size r) (speed r) (eta r) (lastUpdate r) (lastBytesSent r) (fileNum r)
    (friendId r) (pic r) (coreConnected r).

Definition set_size (v : QString) (r : FileTransferInstance) :=
  mkFTI (id r) (state r) (direction r) (remotePaused r) (filename r)
    (savePath r) v (speed r) (eta r) (lastUpdate r) (lastBytesSent r)
    (fileNum r) (friendId r) (pic r) (coreConnected r).

Definition set_speed (v : QString) (r : FileTransferInstance) :=
  mkFTI (id r) (state r) (direction r) (remotePaused r) (filename r)
    (savePath r) (size r) v (eta r) (lastUpdate r) (lastBytesSent r)
    (fileNum r) (friendId r) (pic r) (coreConnected r).

Definition set_eta (v : QString) (r : FileTransferInstance) :=
  mkFTI (id r) (state r) (direction r) (remotePaused r) (filename r)
    (savePath r) (size r) (speed r) v (lastUpdate r) (lastBytesSent r)
    (fileNum r) (friendId r) (pic r) (coreConnected r).

Definition set_lastUpdate (v : QDateTime) (r : FileTransferInstance) :=
  mkFTI (id r) (state r) (direction r) (remotePaused r) (filename r)
    (savePath r) (size r) (speed r) (eta r) v (lastBytesSent r)
    (fileNum r) (friendId r) (pic r) (coreConnected r).

Definition set_lastBytesSent (v : Z) (r : FileTransferInstance) :=
  mkFTI (id r) (state r) (direction r) (remotePaused r) (filename r)
    (savePath r) (size r) (speed r) (eta r) (lastUpdate r) v
    (fileNum r) (friendId r) (pic r) (coreConnected r).

Definition set_pic (v : QImage) (r : FileTransferInstance) :=
  mkFTI (id r) (state r) (direction r) (remotePaused r) (filename r)
    (savePath r) (size r) (speed r) (eta r) (lastUpdate r) (lastBytesSent r)
    (fileNum r) (friendId r) v (coreConnected r).

Definition set_coreConnected (v : bool) (r : FileTransferInstance) :=
  mkFTI (id r) (state r) (direction r) (remotePaused r) (filename r)
    (savePath r) (size r) (speed r) (eta r) (lastUpdate r) (lastBytesSent r)
    (fileNum r) (friendId r) (pic r) v.

(** ** Effects *)

(** What a method does to the outside, in program order. *)
Inductive Event : Type :=
| stateUpdated
| Core_cancelFileSend (friendId fileNum : Z)
| Core_rejectFileRecvRequest (friendId fileNum : Z)
| Core_acceptFileRecvRequest (friendId fileNum : Z) (path : QString)
| Core_pauseResumeFileRecv (friendId fileNum : Z)
| Core_pauseResumeFileSend (friendId fileNum : Z)
| qWarning (msg : string)
| QFileDialog_getSaveFileName (title : string) (name : QString)
| QMessageBox_warning (title text : string)
| QFile_open_WriteOnly (path : QString) (ok : bool)
| QFile_remove (path : QString).

Definition Action : Type :=
  FileTransferInstance -> FileTransferInstance * list Event.

Definition skip : Action := fun r => (r, []).
Definition emit (e : Event) : Action := fun r => (r, [e]).
Definition modify (f : FileTransferInstance -> FileTransferInstance) : Action :=
  fun r => (f r, []).
Definition seq (a b : Action) : Action :=
  fun r => let (r1, t1) := a r in let (r2, t2) := b r1 in (r2, (t1 ++ t2)%list).

Notation "a ;; b" := (seq a b) (at level 61, right associativity).

(** [disconnect(Core::getInstance(),0,this,0)]. *)
Definition disconnect_Core : Action := modify (set_coreConnected false).

(** What a slot observes outside the object while it runs: the clock, and
    the file it opens for the preview (whether it opens, its size, its
    contents, and whether [QImage::loadFromData] decodes them). *)
Record Env : Type := mkEnv {
  currentDateTime : QDateTime;
  previewOpens : bool;
  previewSize : Z;
  previewData : QByteArray;
  loadFromData : QByteArray -> bool
}.

(** ** Construction *)

(** [FileTransferInstance::FileTransferInstance(ToxFile File)].  [Idconter]
    is the static counter; the constructor returns its new value with the
    object.  [now] is [QDateTime::currentDateTime()] and [decodes] is
    [QImage::loadFromData].  A new object is connected to nothing. *)
Definition FileTransferInstance_new (Idconter : Z) (now : QDateTime)
    (decodes : QByteArray -> bool) (File : ToxFile.t)
    : FileTransferInstance * Z :=
  ({| id := Idconter;
      state := tsPending;
      direction := ToxFile.direction File;
      remotePaused := false;
      filename := ToxFile.fileName File;
      savePath := EmptyString;
      size := getHumanReadableSize (to_ulonglong (ToxFile.filesize File));
      speed := "0B/s";
      eta := "00:00";
      lastUpdate := now;
      lastBytesSent := 0;
      fileNum := ToxFile.fileNum File;
      friendId := ToxFile.friendId File;
      pic := match ToxFile.direction File with
             | SENDING =>
                 if decodes (ToxFile.file File)
                 then QImage_scaled (ToxFile.file File) 50
                 else QImage_null
             | RECEIVING => QImage_null
             end;
      coreConnected := false |},
   to_uint (Idconter + 1)).

(** Modelled from the spec: the owner of the widget, which is not in this
    file, connects the notifications of the core to the slots of a new
    object ("the widget assumes exactly one external notification source per
    transfer and detaches from it upon reaching a terminal state"). *)
Definition connect_Core : Action := modify (set_coreConnected true).

(** ** Slots: notifications of the core *)

(** The test every slot starts with:
    [FileNum != fileNum || FriendId != friendId || Direction != direction]. *)
Definition mismatch (r : FileTransferInstance) (FriendId FileNum : Z)
    (Direction : FileDirection) : bool :=
  negb (FileNum =? fileNum r) || negb (FriendId =? friendId r)
  || negb (FileDirection_eqb Direction (direction r)).

(** The locals of [onFileTransferInfo]. *)
Definition info_timediff (r : FileTransferInstance) (newtime : QDateTime) : Z :=
  to_int (secsTo (lastUpdate r) newtime).

Definition info_diff (r : FileTransferInstance) (BytesSent : Z) : Z :=
  to_int64 (BytesSent - lastBytesSent r).

Definition info_rawspeed (r : FileTransferInstance) (newtime : QDateTime)
    (BytesSent : Z) : Z :=
  let diff := info_diff r BytesSent in
  let diff := if diff <? 0 then 0 else diff in
  to_long (Z.quot diff (info_timediff r newtime)).

Definition info_etaSecs (Filesize BytesSent rawspeed : Z) : Z :=
  to_int (Z.quot (to_int64 (Filesize - BytesSent)) rawspeed).

Definition negative_speed_msg : string :=
  "FileTransferInstance::onFileTransferInfo: Negative transfer speed !".

(** [FileTransferInstance::onFileTransferInfo]. *)
Definition onFileTransferInfo (env : Env) (FriendId FileNum Filesize BytesSent : Z)
    (Direction : FileDirection) : Action :=
  fun r =>
    if mismatch r FriendId FileNum Direction then skip r
    else
      let newtime := currentDateTime env in
      if info_timediff r newtime <=? 0 then skip r
      else
        let rawspeed := info_rawspeed r newtime BytesSent in
        ((if info_diff r BytesSent <? 0
          then emit (qWarning negative_speed_msg) else skip) ;;
         modify (set_speed
                   (getHumanReadableSize (to_ulonglong rawspeed) ++ "/s")) ;;
         modify (set_size (getHumanReadableSize (to_ulonglong Filesize))) ;;
         (if rawspeed =? 0 then skip
          else
            let etaSecs := info_etaSecs Filesize BytesSent rawspeed in
            modify (set_eta (toString_mmss (addSecs (QTime_hm 0 0) etaSecs))) ;;
            modify (set_lastUpdate newtime) ;;
            modify (set_lastBytesSent BytesSent) ;;
            emit stateUpdated)) r.

(** [FileTransferInstance::onFileTransferCancelled]. *)
Definition onFileTransferCancelled (FriendId FileNum : Z)
    (Direction : FileDirection) : Action :=
  fun r =>
    if mismatch r FriendId FileNum Direction then skip r
    else (disconnect_Core ;; modify (set_state tsCanceled) ;; emit stateUpdated) r.

(** [FileTransferInstance::onFileTransferFinished]. *)
Definition onFileTransferFinished (env : Env) (File : ToxFile.t) : Action :=
  fun r =>
    if mismatch r (ToxFile.friendId File) (ToxFile.fileNum File)
         (ToxFile.direction File)
    then skip r
    else
      (disconnect_Core ;;
       (match ToxFile.direction File with
        | RECEIVING =>
            if previewOpens env && (previewSize env <=? 1024 * 1024 * 25)
            then
              if loadFromData env (previewData env)
              then modify (set_pic (QImage_scaled (previewData env) 50))
              else skip
            else skip
        | SENDING => skip
        end) ;;
       modify (set_state tsFinished) ;;
       emit stateUpdated) r.

(** [FileTransferInstance::onFileTransferAccepted]. *)
Definition onFileTransferAccepted (File : ToxFile.t) : Action :=
  fun r =>
    if mismatch r (ToxFile.friendId File) (ToxFile.fileNum File)
         (ToxFile.direction File)
    then skip r
    else
      (modify (set_remotePaused false) ;;
       modify (set_state tsProcessing) ;;
       emit stateUpdated) r.

(** [FileTransferInstance::onFileTransferRemotePausedUnpaused]. *)
Definition onFileTransferRemotePausedUnpaused (File : ToxFile.t) (paused : bool)
    : Action :=
  fun r =>
    if mismatch r (ToxFile.friendId File) (ToxFile.fileNum File)
         (ToxFile.direction File)
    then skip r
    else (modify (set_remotePaused paused) ;; emit stateUpdated) r.

(** [FileTransferInstance::onFileTransferPaused]. *)
Definition onFileTransferPaused (FriendId FileNum : Z)
    (Direction : FileDirection) : Action :=
  fun r =>
    if mismatch r FriendId FileNum Direction then skip r
    else (modify (set_state tsPaused) ;; emit stateUpdated) r.

(** ** User actions *)

(** [FileTransferInstance::cancelTransfer]. *)
Definition cancelTransfer : Action :=
  fun r =>
    (emit (Core_cancelFileSend (friendId r) (fileNum r)) ;;
     modify (set_state tsCanceled) ;;
     emit stateUpdated) r.

(** [FileTransferInstance::rejectRecvRequest]. *)
Definition rejectRecvRequest : Action :=
  fun r =>
    (emit (Core_rejectFileRecvRequest (friendId r) (fileNum r)) ;;
     (fun r' => onFileTransferCancelled (friendId r') (fileNum r') (direction r') r') ;;
     modify (set_state tsCanceled) ;;
     emit stateUpdated) r.

(** One round of the save dialog as the user and the file system answer it:
    the path returned by [QFileDialog::getSaveFileName] (empty when the
    dialog is cancelled) and, for the probe of [isFileWritable] on it,
    whether the file exists and whether opening it for writing succeeds. *)
Record DialogAnswer : Type := mkAnswer {
  chosen : QString;
  exists_ : bool;
  opens : bool
}.

Definition isEmpty (s : QString) : bool :=
  match s with EmptyString => true | String _ _ => false end.

(** [isFileWritable(QString& path)]: the result and what it did to the file
    system. *)
Definition isFileWritable (a : DialogAnswer) : bool * list Event :=
  let path := chosen a in
  let out := opens a in
  (out,
   (QFile_open_WriteOnly path out
      :: (if negb (exists_ a) then [QFile_remove path] else []))%list).

Definition save_title : string := "Save a file".
Definition not_writable_title : string := "Location not writable".
Definition not_writable_text : string :=
  "You do not have permission to write that location. Choose another, or cancel the save dialog.".

(** How the [while (true)] loop of [acceptRecvRequest] ends on a finite
    script of answers: with a path, with the dialog cancelled, or still
    waiting in the dialog when the script is used up. *)
Inductive PathChoice : Type :=
| Chosen (path : QString) (t : list Event)
| Dismissed (t : list Event)
| Asking (t : list Event).

Definition prepend (e : list Event) (c : PathChoice) : PathChoice :=
  match c with
  | Chosen p t => Chosen p (e ++ t)%list
  | Dismissed t => Dismissed (e ++ t)%list
  | Asking t => Asking (e ++ t)%list
  end.

(** The loop of [acceptRecvRequest]. *)
Fixpoint choosePath (filename : QString) (answers : list DialogAnswer)
    : PathChoice :=
  let ask := QFileDialog_getSaveFileName save_title filename in
  match answers with
  | [] => Asking [ask]
  | a :: rest =>
      if isEmpty (chosen a) then Dismissed [ask]
      else
        let (writable, probe) := isFileWritable a in
        if writable then Chosen (chosen a) (ask :: probe)
        else
          prepend
            ((ask :: probe) ++
             [QMessageBox_warning not_writable_title not_writable_text])%list
            (choosePath filename rest)
  end.

(** The result of a method that may still be inside a dialog. *)
Inductive Outcome : Type :=
| Returned (r : FileTransferInstance) (t : list Event)
| InDialog (r : FileTransferInstance) (t : list Event).

Definition returned (x : FileTransferInstance * list Event) : Outcome :=
  Returned (fst x) (snd x).

Definition object_of (o : Outcome) : FileTransferInstance :=
  match o with Returned r _ | InDialog r _ => r end.

Definition effects_of (o : Outcome) : list Event :=
  match o with Returned _ t | InDialog _ t => t end.

(** [FileTransferInstance::acceptRecvRequest]. *)
Definition acceptRecvRequest (answers : list DialogAnswer)
    (r : FileTransferInstance) : Outcome :=
  match choosePath (filename r) answers with
  | Asking t => InDialog r t
  | Dismissed t => Returned r t
  | Chosen path t =>
      let (r', t') :=
        (modify (set_savePath path) ;;
         emit (Core_acceptFileRecvRequest (friendId r) (fileNum r) path) ;;
         modify (set_state tsProcessing) ;;
         emit stateUpdated) r in
      Returned r' (t ++ t')%list
  end.

(** [FileTransferInstance::pauseResumeRecv]. *)
Definition pauseResumeRecv : Action :=
  fun r =>
    if negb (TransfState_eqb (state r) tsProcessing
             || TransfState_eqb (state r) tsPaused)
    then skip r
    else if remotePaused r then skip r
    else
      (emit (Core_pauseResumeFileRecv (friendId r) (fileNum r)) ;;
       emit stateUpdated) r.

(** [FileTransferInstance::pauseResumeSend]. *)
Definition pauseResumeSend : Action :=
  fun r =>
    if negb (TransfState_eqb (state r) tsProcessing
             || TransfState_eqb (state r) tsPaused)
    then skip r
    else if remotePaused r then skip r
    else
      (emit (Core_pauseResumeFileSend (friendId r) (fileNum r)) ;;
       emit stateUpdated) r.

(** The condition under which the two methods above reach the core. *)
Definition toggle_enabled (r : FileTransferInstance) : Prop :=
  (state r = tsProcessing \/ state r = tsPaused) /\ remotePaused r = false.

(** [FileTransferInstance::pressFromHtml]. *)
Definition pressFromHtml (code : QString) (answers : list DialogAnswer)
    (r : FileTransferInstance) : Outcome :=
  if TransfState_eqb (state r) tsFinished || TransfState_eqb (state r) tsCanceled
  then Returned r []
  else
    match direction r with
    | SENDING =>
        if (code =? "btnA")%string then returned (cancelTransfer r)
        else if (code =? "btnB")%string then returned (pauseResumeSend r)
        else Returned r []
    | RECEIVING =>
        if (code =? "btnA")%string then returned (rejectRecvRequest r)
        else if (code =? "btnB")%string then
          if TransfState_eqb (state r) tsPending then acceptRecvRequest answers r
          else returned (pauseResumeRecv r)
        else Returned r []
    end.

(** ** Rendering *)

Definition stopFileButton := QImage_resource ":/ui/fileTransferInstance/stopFileButton.png".
Definition pauseFileButton := QImage_resource ":/ui/fileTransferInstance/pauseFileButton.png".
Definition resumeFileButton := QImage_resource ":/ui/fileTransferInstance/resumeFileButton.png".
Definition pauseGreyFileButton := QImage_resource ":/ui/fileTransferInstance/pauseGreyFileButton.png".
Definition acceptFileButton := QImage_resource ":/ui/fileTransferInstance/acceptFileButton.png".
Definition emptyLRedFileButton := QImage_resource ":/ui/fileTransferInstance/emptyLRedFileButton.png".
Definition emptyRRedFileButton := QImage_resource ":/ui/fileTransferInstance/emptyRRedFileButton.png".
Definition emptyLGreenFileButton := QImage_resource ":/ui/fileTransferInstance/emptyLGreenFileButton.png".
Definition emptyRGreenFileButton := QImage_resource ":/ui/fileTransferInstance/emptyRGreenFileButton.png".

(** The image [getHtmlImage] passes as [rightBtnImg] in the two-button
    states: the choice by state and direction, then the override. *)
Definition stateButton (r : FileTransferInstance) : QImage :=
  match state r with
  | tsProcessing => pauseFileButton
  | tsPaused => resumeFileButton
  | _ =>
      match direction r with
      | SENDING => pauseGreyFileButton
      | RECEIVING => acceptFileButton
      end
  end.

Definition rightBtnImg (r : FileTransferInstance) : QImage :=
  if remotePaused r then pauseGreyFileButton else stateButton r.

Section Rendering.

(** [QImage2base64]: the PNG encoding of an image in base 64, which
    depends on the pixels of the image and on the PNG writer. *)
Variable QImage2base64 : QImage -> QString.

(** [FileTransferInstance::insertMiniature]. *)
Definition insertMiniature (r : FileTransferInstance) (type : QString)
    : QString :=
  if QImage_isNull (pic r) then EmptyString
  else
    let widgetId := number (id r) in
    "<td><div class=" ++ type ++ ">" ++ nl
    ++ "<img src=" ++ dquote ++ "data:mini." ++ widgetId ++ "/png;base64,"
    ++ QImage2base64 (pic r) ++ dquote ++ ">"
    ++ "</div></td>" ++ nl.

(** [FileTransferInstance::wrapIntoForm]. *)
Definition wrapIntoForm (r : FileTransferInstance)
    (content type imgAstr imgBstr : QString) : QString :=
  "<table widht=100% cellspacing=" ++ dquote ++ "0" ++ dquote ++ ">" ++ nl
  ++ "<tr valign=middle>" ++ nl
  ++ insertMiniature r type
  ++ "<td width=100%>" ++ nl
  ++ "<div class=" ++ type ++ ">"
  ++ content
  ++ "</div>" ++ nl
  ++ "</td>" ++ nl
  ++ "<td>" ++ nl
  ++ "<div class=button>" ++ imgAstr ++ "<br>" ++ imgBstr ++ "</div>" ++ nl
  ++ "</td>" ++ nl
  ++ "</tr>" ++ nl
  ++ "</table>" ++ nl.

(** The [<img>] element of a button of the two-button form. *)
Definition buttonTag (r : FileTransferInstance) (btn : string) (img : QImage)
    : QString :=
  "<img src=" ++ dquote ++ "data:ftrans." ++ number (id r) ++ "." ++ btn
  ++ "/png;base64," ++ QImage2base64 img ++ dquote ++ ">".

Definition plainTag (img : QImage) : QString :=
  "<img src=" ++ dquote ++ "data:placeholder/png;base64,"
  ++ QImage2base64 img ++ dquote ++ ">".

(** [FileTransferInstance::drawButtonlessForm]. *)
Definition drawButtonlessForm (r : FileTransferInstance) (type : QString)
    : QString :=
  let imgAStr :=
    if (type =? "red")%string then plainTag emptyLRedFileButton
    else plainTag emptyLGreenFileButton in
  let imgBStr :=
    if (type =? "red")%string then plainTag emptyRRedFileButton
    else plainTag emptyRGreenFileButton in
  let content := "<p>" ++ filename r ++ "</p><p>" ++ size r ++ "</p>" in
  wrapIntoForm r content type imgAStr imgBStr.

(** [FileTransferInstance::draw2ButtonsForm]. *)
Definition draw2ButtonsForm (r : FileTransferInstance) (type : QString)
    (imgA imgB : QImage) : QString :=
  let imgAstr := buttonTag r "btnA" imgA in
  let imgBstr := buttonTag r "btnB" imgB in
  let content :=
    "<p>" ++ filename r ++ "</p>"
    ++ "<p>" ++ getHumanReadableSize (to_ulonglong (lastBytesSent r))
    ++ " / " ++ size r ++ "&nbsp;(" ++ speed r ++ " ETA: " ++ eta r
    ++ ")</p>" ++ nl in
  wrapIntoForm r content type imgAstr imgBstr.

(** [FileTransferInstance::getHtmlImage] (its [qDebug] line left out). *)
Definition getHtmlImage (r : FileTransferInstance) : QString :=
  match state r with
  | tsPending | tsProcessing | tsPaused =>
      draw2ButtonsForm r "silver" stopFileButton (rightBtnImg r)
  | tsCanceled => drawButtonlessForm r "red"
  | tsFinished => drawButtonlessForm r "green"
  end.

End Rendering.

(** [sub] occurs in [s]. *)
Definition contains (sub s : string) : Prop :=
  exists pre post, s = pre ++ sub ++ post.

(** ** Notifications and runs *)

(** The signals of [Core] the slots are connected to, with their arguments. *)
Inductive Notification : Type :=
| fileTransferInfo (FriendId FileNum Filesize BytesSent : Z) (Direction : FileDirection)
| fileTransferCancelled (FriendId FileNum : Z) (Direction : FileDirection)
| fileTransferFinished (File : ToxFile.t)
| fileTransferAccepted (File : ToxFile.t)
| fileTransferRemotePausedUnpaused (File : ToxFile.t) (paused : bool)
| fileTransferPaused (FriendId FileNum : Z) (Direction : FileDirection).

(** The identity a notification carries. *)
Definition identity (n : Notification) : Z * Z * FileDirection :=
  match n with
  | fileTransferInfo f k _ _ d
  | fileTransferCancelled f k d
  | fileTransferPaused f k d => (f, k, d)
  | fileTransferFinished F
  | fileTransferAccepted F
  | fileTransferRemotePausedUnpaused F _ =>
      (ToxFile.friendId F, ToxFile.fileNum F, ToxFile.direction F)
  end.

Definition identity_of (r : FileTransferInstance) : Z * Z * FileDirection :=
  (friendId r, fileNum r, direction r).

(** The slot a signal is connected to. *)
Definition slot (env : Env) (n : Notification) : Action :=
  match n with
  | fileTransferInfo f k total sent d => onFileTransferInfo env f k total sent d
  | fileTransferCancelled f k d => onFileTransferCancelled f k d
  | fileTransferFinished F => onFileTransferFinished env F
  | fileTransferAccepted F => onFileTransferAccepted F
  | fileTransferRemotePausedUnpaused F p => onFileTransferRemotePausedUnpaused F p
  | fileTransferPaused f k d => onFileTransferPaused f k d
  end.

(** A signal of the core reaches the object only through a connection. *)
Definition deliver (env : Env) (n : Notification) : Action :=
  fun r => if coreConnected r then slot env n r else skip r.

(** What can happen to a widget: a notification of the core, or the user
    pressing a control or calling an action. *)
Inductive Op : Type :=
| Notify (env : Env) (n : Notification)
| Cancel
| Reject
| Accept (answers : list DialogAnswer)
| PauseResumeRecv
| PauseResumeSend
| Press (code : QString) (answers : list DialogAnswer).

Definition step (o : Op) (r : FileTransferInstance) : FileTransferInstance :=
  match o with
  | Notify env n => fst (deliver env n r)
  | Cancel => fst (cancelTransfer r)
  | Reject => fst (rejectRecvRequest r)
  | Accept answers => object_of (acceptRecvRequest answers r)
  | PauseResumeRecv => fst (pauseResumeRecv r)
  | PauseResumeSend => fst (pauseResumeSend r)
  | Press code answers => object_of (pressFromHtml code answers r)
  end.

Definition run (ops : list Op) (r : FileTransferInstance) : FileTransferInstance :=
  fold_left (fun r o => step o r) ops r.

Definition terminal (r : FileTransferInstance) : Prop :=
  state r = tsCanceled \/ state r = tsFinished.

(** ** Sample objects and the vocabulary of the statements *)

Definition never_decodes : QByteArray -> bool := fun _ => false.

(** An outgoing transfer of 4096 bytes, built at clock 1000000 ms. *)
Definition sample_file : ToxFile.t :=
  ToxFile.mk 3 7 "notes.txt" "/home/u/notes.txt" "hello" 4096 SENDING.

(** An incoming one from the same friend. *)
Definition sample_incoming : ToxFile.t :=
  ToxFile.mk 5 7 "song.ogg" "/home/u/song.ogg" EmptyString 1048576 RECEIVING.

Definition at_clock (now : QDateTime) : Env :=
  mkEnv now false 0 EmptyString never_decodes.

(** The widgets their owner builds for them and connects to the core. *)
Definition sample_widget : FileTransferInstance :=
  fst (connect_Core (fst (FileTransferInstance_new 0 1000000 never_decodes sample_file))).

Definition sample_receiver : FileTransferInstance :=
  fst (connect_Core (fst (FileTransferInstance_new 1 1000000 never_decodes sample_incoming))).

(** The script of a user who first picks a read-only location, then a
    writable one. *)
Definition readonly_answer : DialogAnswer := mkAnswer "/proc/song.ogg" false false.
Definition writable_answer : DialogAnswer := mkAnswer "/home/u/song.ogg" false true.
Definition cancel_answer : DialogAnswer := mkAnswer EmptyString false false.

(** The effects of the rounds of the save dialog that end in the warning
    box, one round per answer. *)
Definition failed_rounds (filename : QString) (bad : list DialogAnswer)
    : list Event :=
  flat_map
    (fun b =>
       (QFileDialog_getSaveFileName save_title filename :: snd (isFileWritable b))
       ++ [QMessageBox_warning not_writable_title not_writable_text])%list
    bad.

(** An answer that sends the loop round again: a path was chosen and the
    probe could not open it. *)
Definition rejected (b : DialogAnswer) : Prop :=
  isEmpty (chosen b) = false /\ opens b = false.

(** The effects that report to the core or to the host view. *)
Definition outward (e : Event) : bool :=
  match e with
  | stateUpdated
  | Core_cancelFileSend _ _
  | Core_rejectFileRecvRequest _ _
  | Core_acceptFileRecvRequest _ _ _
  | Core_pauseResumeFileRecv _ _
  | Core_pauseResumeFileSend _ _ => true
  | _ => false
  end.

(** The calls into the core among the effects. *)
Definition is_core_request (e : Event) : bool :=
  match e with
  | Core_cancelFileSend _ _
  | Core_rejectFileRecvRequest _ _
  | Core_acceptFileRecvRequest _ _ _
  | Core_pauseResumeFileRecv _ _
  | Core_pauseResumeFileSend _ _ => true
  | _ => false
  end.

Definition is_stateUpdated (e : Event) : bool :=
  match e with stateUpdated => true | _ => false end.

(** The operations that reach the object from outside the class: the
    signals of the core and the clicks the chat log forwards. *)
Definition from_outside (o : Op) : Prop :=
  match o with
  | Notify _ _ | Press _ _ => True
  | _ => False
  end.

(** The members no method assigns after construction. *)
Definition constants_of (r : FileTransferInstance)
    : Z * FileDirection * QString * Z * Z :=
  (id r, direction r, filename r, fileNum r, friendId r).

(** The request [pressFromHtml] sends for the first button. *)
Definition stop_request (r : FileTransferInstance) : Event :=
  match direction r with
  | SENDING => Core_cancelFileSend (friendId r) (fileNum r)
  | RECEIVING => Core_rejectFileRecvRequest (friendId r) (fileNum r)
  end.

(** The text [toString("mm:ss")] gives for a number of seconds within the
    hour. *)
Definition mmss_within_hour (s : Z) : string :=
  two_digits (s / 60) ++ ":" ++ two_digits (s mod 60).

(** The effects of the dialog loop, however it ended. *)
Definition loop_effects (c : PathChoice) : list Event :=
  match c with Chosen _ t | Dismissed t | Asking t => t end.

(** [contains], decided: [sub] is a prefix of [s] or occurs further on. *)
Fixpoint occurs (sub s : string) : bool :=
  String.prefix sub s
  || match s with
     | EmptyString => false
     | String _ s' => occurs sub s'
     end.

(** An encoder for the examples: an image of the resource bundle is
    written as its path. *)
Definition path_as_base64 (img : QImage) : QString :=
  match img with
  | QImage_resource p => p
  | _ => EmptyString
  end.

(** ** Facts about the machine integers *)

Module CIntFacts.

Lemma wrap_signed_id w x :
  0 < w -> - 2 ^ (w - 1) <= x < 2 ^ (w - 1) -> wrap_signed w x = x.
Proof.
  intros Hw Hx. unfold wrap_signed.
  assert (E : 2 ^ w = 2 * 2 ^ (w - 1)).
  { replace w with (Z.succ (w - 1)) at 1 by lia. apply Z.pow_succ_r. lia. }
  rewrite Z.mod_small by lia. lia.
Qed.

Lemma to_int64_id x : in_int64 x -> to_int64 x = x.
Proof. intros H. apply wrap_signed_id; [lia | exact H]. Qed.


Lemma to_int_id x : in_int x -> to_int x = x.
Proof. intros H. apply wrap_signed_id; [lia | exact H]. Qed.


Lemma to_int_range x : in_int (to_int x).
Proof.
  unfold to_int, in_int, wrap_signed.
  change (2 ^ (32 - 1)) with 2147483648; change (2 ^ 31) with 2147483648.
  pose proof (Z.mod_pos_bound (x + 2147483648) (2 ^ 32) eq_refl) as B.
  change (2 ^ 32) with 4294967296 in *. lia.
Qed.

End CIntFacts.
Import CIntFacts.

(** ** The identity filter *)

Ltac run_action :=
  unfold seq, skip, emit, modify, disconnect_Core, connect_Core; cbn.


Lemma FileDirection_eqb_eq a b : FileDirection_eqb a b = true <-> a = b.
Proof. destruct a, b; cbn; split; congruence. Qed.

Lemma mismatch_false r f k d :
  mismatch r f k d = false <-> (f, k, d) = identity_of r.
Proof.
  unfold mismatch, identity_of.
  rewrite !orb_false_iff, !negb_false_iff, !Z.eqb_eq, FileDirection_eqb_eq.
  split.
  - intros [[Hk Hf] Hd]. congruence.
  - intros H. injection H as Hf Hk Hd. auto.
Qed.

Lemma mismatch_true r f k d :
  (f, k, d) <> identity_of r -> mismatch r f k d = true.
Proof.
  intros H. destruct (mismatch r f k d) eqn:E; [reflexivity|].
  apply mismatch_false in E. contradiction.
Qed.

(** C4.  A notification of any kind whose (friend, file number, direction)
    is not the identity of the object runs into the first test of its slot:
    the object is returned as it was, field for field, and nothing is
    emitted, whatever else the notification carries and whatever the clock
    and the file system show. *)
Theorem mismatched_notification_ignored :
  forall (env : Env) (n : Notification) (r : FileTransferInstance),
    identity n <> identity_of r ->
    slot env n r = (r, []) /\ deliver env n r = (r, []).
Proof.
  intros env n r H.
  assert (S : slot env n r = (r, [])).
  { destruct n; cbn in H; cbn [slot];
      [ unfold onFileTransferInfo | unfold onFileTransferCancelled
      | unfold onFileTransferFinished | unfold onFileTransferAccepted
      | unfold onFileTransferRemotePausedUnpaused | unfold onFileTransferPaused ];
      rewrite (mismatch_true _ _ _ _ H); reflexivity. }
  split; [exact S|].
  unfold deliver. destruct (coreConnected r); [exact S | reflexivity].
Qed.

Lemma mismatched_notification_ignored_witness :
  slot (at_clock 1005000) (fileTransferInfo 7 4 4096 2048 SENDING) sample_widget
    = (sample_widget, [])
  /\ deliver (at_clock 1005000) (fileTransferInfo 7 4 4096 2048 SENDING) sample_widget
    = (sample_widget, []).
Proof.
  apply (mismatched_notification_ignored
           (at_clock 1005000) (fileTransferInfo 7 4 4096 2048 SENDING) sample_widget).
  cbn. intros H. discriminate H.
Defined.

(** ** The accepted notification *)

(** C10.  An identity-matched "accepted" notification clears [remotePaused]
    and sets [state] to [tsProcessing]; it tests nothing but the identity, so
    it does so from every state, [tsPending] or not.  Every other field
    keeps its value, and the change is signalled once. *)
Theorem accepted_sets_processing :
  forall (File : ToxFile.t) (r : FileTransferInstance),
    identity (fileTransferAccepted File) = identity_of r ->
    onFileTransferAccepted File r
      = (set_state tsProcessing (set_remotePaused false r), [stateUpdated])
    /\ state (fst (onFileTransferAccepted File r)) = tsProcessing
    /\ remotePaused (fst (onFileTransferAccepted File r)) = false.
Proof.
  intros File r H. cbn [identity] in H. apply mismatch_false in H.
  unfold onFileTransferAccepted. rewrite H. run_action. auto.
Qed.

(** The notification arrives at a widget that is paused on both sides. *)
Lemma accepted_sets_processing_witness :
  let r := set_remotePaused true (set_state tsPaused sample_widget) in
  (state r = tsPaused /\ remotePaused r = true)
  /\ state (fst (onFileTransferAccepted sample_file r)) = tsProcessing
  /\ remotePaused (fst (onFileTransferAccepted sample_file r)) = false.
Proof.
  intros r. split; [split; reflexivity|].
  apply (accepted_sets_processing sample_file r). reflexivity.
Defined.

(** ** Pause and resume *)

(** C9.  [pauseResumeRecv] and [pauseResumeSend] do nothing at all unless
    the state is [tsProcessing] or [tsPaused] and the peer has not paused;
    otherwise they ask the core to toggle and signal a change, and the
    object, its state included, is what it was: the state moves only when a
    notification of the core says so. *)
Theorem pauseResume_only_requests :
  forall r : FileTransferInstance,
    (~ toggle_enabled r ->
       pauseResumeRecv r = (r, []) /\ pauseResumeSend r = (r, []))
    /\ (toggle_enabled r ->
          pauseResumeRecv r
            = (r, [Core_pauseResumeFileRecv (friendId r) (fileNum r); stateUpdated])
          /\ pauseResumeSend r
            = (r, [Core_pauseResumeFileSend (friendId r) (fileNum r); stateUpdated])).
Proof.
  intros r. unfold toggle_enabled, pauseResumeRecv, pauseResumeSend. split.
  - intros H.
    destruct (state r); destruct (remotePaused r); cbn; auto;
      exfalso; apply H; auto.
  - intros [[H | H] P]; rewrite H, P; cbn; auto.
Qed.

Lemma pauseResume_only_requests_witness :
  let r := set_state tsProcessing sample_widget in
  let q := set_remotePaused true r in
  (pauseResumeRecv q = (q, []) /\ pauseResumeSend q = (q, []))
  /\ pauseResumeRecv r = (r, [Core_pauseResumeFileRecv 7 3; stateUpdated])
  /\ pauseResumeSend r = (r, [Core_pauseResumeFileSend 7 3; stateUpdated]).
Proof.
  intros r q. split.
  - apply (proj1 (pauseResume_only_requests q)).
    unfold toggle_enabled. cbn. intros [_ H]. discriminate H.
  - apply (proj2 (pauseResume_only_requests r)).
    unfold toggle_enabled. cbn. auto.
Defined.

(** The state after a toggle is the state before it. *)
Lemma pauseResume_keeps_object r :
  fst (pauseResumeRecv r) = r /\ fst (pauseResumeSend r) = r.
Proof.
  unfold pauseResumeRecv, pauseResumeSend.
  destruct (state r); destruct (remotePaused r); cbn; auto.
Qed.

(** ** Terminal states and detachment *)

(** A detached object is out of reach of every notification. *)
Lemma detached_is_frozen env n r :
  coreConnected r = false -> deliver env n r = (r, []).
Proof. intros H. unfold deliver. rewrite H. reflexivity. Qed.

(** The slots of the two terminal notifications detach the object. *)
Lemma cancelled_detaches r :
  let r' := fst (onFileTransferCancelled (friendId r) (fileNum r) (direction r) r) in
  state r' = tsCanceled /\ coreConnected r' = false.
Proof.
  unfold onFileTransferCancelled.
  rewrite (proj2 (mismatch_false r _ _ _) eq_refl). run_action. auto.
Qed.

Lemma finished_detaches env File r :
  identity (fileTransferFinished File) = identity_of r ->
  let r' := fst (onFileTransferFinished env File r) in
  state r' = tsFinished /\ coreConnected r' = false.
Proof.
  intros H. cbn [identity] in H. apply mismatch_false in H.
  unfold onFileTransferFinished. rewrite H. run_action.
  destruct (ToxFile.direction File); cbn; auto.
  destruct (previewOpens env && (previewSize env <=? 26214400)); cbn; auto.
  destruct (loadFromData env (previewData env)); cbn; auto.
Qed.

(** So does a rejection, which replays the cancellation slot. *)
Lemma reject_detaches r :
  let r' := fst (rejectRecvRequest r) in
  state r' = tsCanceled /\ coreConnected r' = false.
Proof.
  unfold rejectRecvRequest, onFileTransferCancelled. run_action.
  rewrite (proj2 (mismatch_false r _ _ _) eq_refl). cbn. auto.
Qed.

(** [cancelTransfer] sets the terminal state and keeps the connection. *)
Lemma cancelTransfer_result r :
  cancelTransfer r
    = (set_state tsCanceled r,
       [Core_cancelFileSend (friendId r) (fileNum r); stateUpdated]).
Proof. reflexivity. Qed.

(** In the chat log the first button of an outgoing transfer is
    [cancelTransfer]. *)
Lemma pressFromHtml_cancels answers r :
  direction r = SENDING -> state r <> tsFinished -> state r <> tsCanceled ->
  pressFromHtml "btnA" answers r = returned (cancelTransfer r).
Proof.
  intros Hd Hf Hc. unfold pressFromHtml. rewrite Hd.
  destruct (state r); try contradiction; reflexivity.
Qed.

(** C1, on the code.  The user presses the stop button of an outgoing
    transfer, which runs [cancelTransfer]: the state is [tsCanceled] and the
    object is still connected to the core.  The "accepted" notification of
    that transfer, arriving next, is delivered and puts the cancelled widget
    back to [tsProcessing]; a progress notification five seconds later
    rewrites its statistics. *)
Theorem cancelTransfer_stays_attached :
  let r1 := run [Press "btnA" []] sample_widget in
  let r2 := run [Notify (at_clock 1000000) (fileTransferAccepted sample_file)] r1 in
  let r3 := run [Notify (at_clock 1005000) (fileTransferInfo 7 3 4096 2048 SENDING)] r1 in
  r1 = fst (cancelTransfer sample_widget)
  /\ state r1 = tsCanceled /\ coreConnected r1 = true
  /\ state r2 = tsProcessing /\ r2 <> r1
  /\ speed r1 = "0B/s" /\ speed r3 = "409.00B/s" /\ eta r3 = "00:05"
  /\ lastBytesSent r3 = 2048 /\ r3 <> r1.
Proof.
  cbv zeta. repeat split; try reflexivity; intros H; discriminate H.
Qed.

(** Detachment is never undone: no method of the class connects. *)
Lemma step_keeps_detached o r :
  coreConnected r = false -> coreConnected (step o r) = false.
Proof.
  intros H. destruct o; cbn [step].
  - rewrite detached_is_frozen by exact H. exact H.
  - exact H.
  - apply reject_detaches.
  - unfold acceptRecvRequest.
    destruct (choosePath (filename r) answers); cbn; exact H.
  - rewrite (proj1 (pauseResume_keeps_object r)). exact H.
  - rewrite (proj2 (pauseResume_keeps_object r)). exact H.
  - unfold pressFromHtml.
    destruct (TransfState_eqb (state r) tsFinished || TransfState_eqb (state r) tsCanceled);
      [exact H|].
    destruct (direction r).
    + destruct (code =? "btnA")%string; [exact H|].
      destruct (code =? "btnB")%string; [|exact H].
      unfold returned. cbn [object_of].
      rewrite (proj2 (pauseResume_keeps_object r)). exact H.
    + destruct (code =? "btnA")%string; [apply reject_detaches|].
      destruct (code =? "btnB")%string; [|exact H].
      destruct (TransfState_eqb (state r) tsPending).
      * unfold acceptRecvRequest.
        destruct (choosePath (filename r) answers); cbn; exact H.
      * unfold returned. cbn [object_of].
        rewrite (proj1 (pauseResume_keeps_object r)). exact H.
Qed.

Lemma run_keeps_detached ops : forall r,
  coreConnected r = false -> coreConnected (run ops r) = false.
Proof.
  induction ops as [|o ops IH]; intros r H; [exact H|].
  cbn. apply IH. apply step_keeps_detached. exact H.
Qed.

(** The invariant on the paths that detach: after a matched "cancelled" or
    "finished" notification, or a rejection, whatever the user does next, a
    notification finds the object detached and changes nothing. *)
Lemma detached_forever ops env n r :
  coreConnected r = false ->
  deliver env n (run ops r) = (run ops r, []).
Proof.
  intros H. apply detached_is_frozen. apply run_keeps_detached. exact H.
Qed.

(** The invariant where the code keeps it.  A connected widget that takes
    its own "cancelled" or "finished" notification is in a terminal state,
    and from then on, whatever is done to it, a notification changes no
    field and causes no effect. *)
Lemma terminal_notification_is_final env n r :
  coreConnected r = true ->
  identity n = identity_of r ->
  (exists f k d, n = fileTransferCancelled f k d)
  \/ (exists F, n = fileTransferFinished F) ->
  let r' := fst (deliver env n r) in
  terminal r'
  /\ forall ops env' n', deliver env' n' (run ops r') = (run ops r', []).
Proof.
  intros Hc Hid Hn. cbv zeta.
  assert (E : deliver env n r = slot env n r).
  { unfold deliver. rewrite Hc. reflexivity. }
  rewrite E. clear E.
  destruct Hn as [(f & k & d & ->) | (F & ->)]; cbn [slot].
  - cbn [identity] in Hid. injection Hid as -> -> ->.
    destruct (cancelled_detaches r) as [Hs Hd]. split.
    + left. exact Hs.
    + intros ops env' n'. apply detached_forever. exact Hd.
  - destruct (finished_detaches env F r Hid) as [Hs Hd]. split.
    + right. exact Hs.
    + intros ops env' n'. apply detached_forever. exact Hd.
Qed.

(** The same after a rejection. *)
Lemma rejection_is_final r :
  let r' := fst (rejectRecvRequest r) in
  terminal r'
  /\ forall ops env n, deliver env n (run ops r') = (run ops r', []).
Proof.
  destruct (reject_detaches r) as [Hs Hd]. split.
  - left. exact Hs.
  - intros ops env n. apply detached_forever. exact Hd.
Qed.

(** ** Progress notifications *)

(** The slot on a matched notification that arrives a positive number of
    seconds after the last update: the strings for speed and size are
    written; on a throughput of zero it returns there, otherwise it goes on
    to the estimate, the new baseline and the signal. *)
Lemma onFileTransferInfo_matched env f k total sent d r :
  (f, k, d) = identity_of r ->
  0 < info_timediff r (currentDateTime env) ->
  let now := currentDateTime env in
  let rawspeed := info_rawspeed r now sent in
  let warn := if info_diff r sent <? 0 then [qWarning negative_speed_msg] else [] in
  let r1 := set_size (getHumanReadableSize (to_ulonglong total))
              (set_speed (getHumanReadableSize (to_ulonglong rawspeed) ++ "/s") r) in
  onFileTransferInfo env f k total sent d r
    = if rawspeed =? 0 then (r1, warn)
      else (set_lastBytesSent sent
              (set_lastUpdate now
                 (set_eta (toString_mmss
                             (addSecs (QTime_hm 0 0) (info_etaSecs total sent rawspeed)))
                    r1)),
            (warn ++ [stateUpdated])%list).
Proof.
  intros Hid Ht. cbv zeta. apply mismatch_false in Hid.
  unfold onFileTransferInfo. rewrite Hid.
  destruct (Z.leb_spec (info_timediff r (currentDateTime env)) 0) as [L|_]; [lia|].
  destruct (info_diff r sent <? 0);
    destruct (info_rawspeed r (currentDateTime env) sent =? 0);
    run_action; reflexivity.
Qed.






(** C6.  On a matched progress notification whose byte count is below the
    baseline, with a positive time elapsed, the throughput is zero and the
    warning is logged.  The slot returns as from any other call: the speed
    string reads zero, the size string is refreshed, and the warning is the
    only effect. *)
Theorem out_of_order_is_clamped :
  forall (env : Env) (f k total sent : Z) (d : FileDirection)
         (r : FileTransferInstance),
    (f, k, d) = identity_of r ->
    0 < info_timediff r (currentDateTime env) ->
    sent < lastBytesSent r ->
    in_int64 (sent - lastBytesSent r) ->
    info_rawspeed r (currentDateTime env) sent = 0
    /\ onFileTransferInfo env f k total sent d r
       = (set_size (getHumanReadableSize (to_ulonglong total))
            (set_speed "0.00B/s" r),
          [qWarning negative_speed_msg]).
Proof.
  intros env f k total sent d r Hid Ht Hlt Hrange.
  assert (D : (info_diff r sent <? 0) = true).
  { unfold info_diff. rewrite (to_int64_id _ Hrange). apply Z.ltb_lt. lia. }
  assert (Q : info_rawspeed r (currentDateTime env) sent = 0).
  { unfold info_rawspeed. rewrite D. rewrite Z.quot_0_l by lia. reflexivity. }
  split; [exact Q|].
  rewrite (onFileTransferInfo_matched env f k total sent d r Hid Ht). cbv zeta.
  rewrite Q, D. reflexivity.
Qed.

(** A report of 100 bytes after the baseline has reached 2048. *)
Lemma out_of_order_is_clamped_witness :
  let r := set_lastBytesSent 2048 sample_widget in
  info_rawspeed r 1005000 100 = 0
  /\ onFileTransferInfo (at_clock 1005000) 7 3 4096 100 SENDING r
     = (set_size "4.00kiB" (set_speed "0.00B/s" r), [qWarning negative_speed_msg]).
Proof.
  intros r.
  apply (out_of_order_is_clamped (at_clock 1005000) 7 3 4096 100 SENDING r).
  - reflexivity.
  - reflexivity.
  - cbn. lia.
  - unfold in_int64. cbn. lia.
Defined.

(** On a throughput of zero the slot has returned before the estimate, the
    baseline and the signal: only the two strings are written, and the only
    possible effect is the warning. *)
Lemma zero_throughput_returns_early env f k total sent d r :
  (f, k, d) = identity_of r ->
  0 < info_timediff r (currentDateTime env) ->
  info_rawspeed r (currentDateTime env) sent = 0 ->
  let r' := fst (onFileTransferInfo env f k total sent d r) in
  speed r' = "0.00B/s"
  /\ size r' = getHumanReadableSize (to_ulonglong total)
  /\ eta r' = eta r
  /\ lastUpdate r' = lastUpdate r
  /\ lastBytesSent r' = lastBytesSent r
  /\ ~ In stateUpdated (snd (onFileTransferInfo env f k total sent d r)).
Proof.
  intros Hid Ht Q. cbv zeta.
  rewrite (onFileTransferInfo_matched env f k total sent d r Hid Ht). cbv zeta.
  rewrite Q. cbn. repeat split.
  destruct (info_diff r sent <? 0); cbn; intuition discriminate.
Qed.

(** C2, on the code.  One byte arrives in the two seconds after the
    baseline, a throughput of zero.  The speed and size strings are
    written; the slot then returns: the baseline (clock 1000000, 0 bytes) is
    not moved to (1002000, 1) and [stateUpdated] is not emitted.  The next
    notification, a second later with 11 bytes, is therefore measured from
    the old baseline: 11 bytes in 3 seconds. *)
Theorem zero_throughput_skips_baseline_and_signal :
  let n1 := fileTransferInfo 7 3 4096 1 SENDING in
  let n2 := fileTransferInfo 7 3 4096 11 SENDING in
  let r1 := fst (deliver (at_clock 1002000) n1 sample_widget) in
  (info_timediff sample_widget 1002000 = 2
   /\ info_rawspeed sample_widget 1002000 1 = 0)
  /\ deliver (at_clock 1002000) n1 sample_widget
     = (set_size "4.00kiB" (set_speed "0.00B/s" sample_widget), [])
  /\ (lastUpdate r1 = 1000000 /\ lastBytesSent r1 = 0)
  /\ speed (fst (deliver (at_clock 1003000) n2 r1)) = "3.00B/s".
Proof.
  cbv zeta. repeat split; reflexivity.
Qed.

(** ** Accepting an incoming transfer *)

Lemma prepend_app e1 e2 c : prepend (e1 ++ e2)%list c = prepend e1 (prepend e2 c).
Proof. destruct c; cbn; rewrite <- app_assoc; reflexivity. Qed.

(** Rounds that fail the probe are gone through one by one, and the loop is
    then where it started, with the rest of the answers. *)
Lemma choosePath_rejected filename bad : forall rest,
  Forall rejected bad ->
  choosePath filename (bad ++ rest)
    = prepend (failed_rounds filename bad) (choosePath filename rest).
Proof.
  induction bad as [|b bad IH]; intros rest H.
  - cbn. destruct (choosePath filename rest); reflexivity.
  - inversion H as [|? ? [He Ho] Hbad]; subst.
    cbn [app choosePath failed_rounds flat_map].
    rewrite He. unfold isFileWritable at 1. rewrite Ho.
    rewrite (IH rest Hbad). rewrite <- prepend_app.
    unfold isFileWritable. rewrite Ho. reflexivity.
Qed.

(** The failed rounds open dialogs and probe files; they tell neither the
    core nor the host view anything. *)
Lemma failed_rounds_inward filename bad :
  filter outward (failed_rounds filename bad) = [].
Proof.
  induction bad as [|b bad IH]; [reflexivity|].
  cbn [failed_rounds flat_map]. rewrite filter_app. fold (failed_rounds filename bad).
  rewrite IH. unfold isFileWritable. cbn.
  destruct (negb (exists_ b)); reflexivity.
Qed.

(** C5.  [acceptRecvRequest] against a user whose first answers [bad] all
    name a path that fails the probe write.  After them the method is back
    in the save dialog with the object untouched and nothing sent out.  If
    the next answer cancels the dialog the method returns the object
    untouched, again with nothing sent out.  If the next answer names a path
    the probe can open, the method returns with [savePath] set to it, the
    state at [tsProcessing], one acceptance request to the core carrying
    that path and one change signal; from [tsPending] this is the single
    transition of the run. *)
Theorem acceptRecvRequest_prompts_until_writable :
  forall (r : FileTransferInstance) (bad : list DialogAnswer)
         (a : DialogAnswer) (rest : list DialogAnswer),
    Forall rejected bad ->
    let ask := QFileDialog_getSaveFileName save_title (filename r) in
    let failed := failed_rounds (filename r) bad in
    let request := Core_acceptFileRecvRequest (friendId r) (fileNum r) (chosen a) in
    (acceptRecvRequest bad r = InDialog r (failed ++ [ask])
     /\ filter outward (failed ++ [ask]) = [])
    /\ (isEmpty (chosen a) = true ->
        acceptRecvRequest (bad ++ a :: rest) r = Returned r (failed ++ [ask]))
    /\ (isEmpty (chosen a) = false -> opens a = true ->
        let done := acceptRecvRequest (bad ++ a :: rest) r in
        done = Returned (set_state tsProcessing (set_savePath (chosen a) r))
                 (failed ++ (ask :: snd (isFileWritable a)) ++ [request; stateUpdated])
        /\ filter outward (effects_of done) = [request; stateUpdated]
        /\ savePath (object_of done) = chosen a
        /\ state (object_of done) = tsProcessing).
Proof.
  intros r bad a rest Hbad. cbv zeta.
  assert (Inw : filter outward
                  (failed_rounds (filename r) bad
                   ++ [QFileDialog_getSaveFileName save_title (filename r)]) = []).
  { rewrite filter_app, failed_rounds_inward. reflexivity. }
  split; [split; [|exact Inw] | split].
  - unfold acceptRecvRequest.
    rewrite <- (app_nil_r bad) at 1.
    rewrite (choosePath_rejected (filename r) bad [] Hbad). reflexivity.
  - intros He. unfold acceptRecvRequest.
    rewrite (choosePath_rejected (filename r) bad (a :: rest) Hbad).
    cbn [choosePath]. rewrite He. reflexivity.
  - intros He Ho.
    assert (E : acceptRecvRequest (bad ++ a :: rest) r
                = Returned (set_state tsProcessing (set_savePath (chosen a) r))
                    (failed_rounds (filename r) bad
                     ++ (QFileDialog_getSaveFileName save_title (filename r)
                           :: snd (isFileWritable a))
                     ++ [Core_acceptFileRecvRequest (friendId r) (fileNum r) (chosen a);
                         stateUpdated])).
    { unfold acceptRecvRequest.
      rewrite (choosePath_rejected (filename r) bad (a :: rest) Hbad).
      cbn [choosePath]. rewrite He. unfold isFileWritable. rewrite Ho.
      run_action. rewrite <- app_assoc. reflexivity. }
    rewrite E. cbn [effects_of object_of]. repeat split.
    rewrite filter_app, failed_rounds_inward. unfold isFileWritable. cbn.
    destruct (negb (exists_ a)); reflexivity.
Qed.

(** One read-only location, then a writable one: one warning, one request. *)
Lemma acceptRecvRequest_prompts_until_writable_witness :
  state sample_receiver = tsPending
  /\ acceptRecvRequest [readonly_answer] sample_receiver
     = InDialog sample_receiver
         [QFileDialog_getSaveFileName save_title "song.ogg";
          QFile_open_WriteOnly "/proc/song.ogg" false;
          QFile_remove "/proc/song.ogg";
          QMessageBox_warning not_writable_title not_writable_text;
          QFileDialog_getSaveFileName save_title "song.ogg"]
  /\ acceptRecvRequest [readonly_answer; cancel_answer] sample_receiver
     = Returned sample_receiver
         [QFileDialog_getSaveFileName save_title "song.ogg";
          QFile_open_WriteOnly "/proc/song.ogg" false;
          QFile_remove "/proc/song.ogg";
          QMessageBox_warning not_writable_title not_writable_text;
          QFileDialog_getSaveFileName save_title "song.ogg"]
  /\ filter outward
       (effects_of (acceptRecvRequest [readonly_answer; writable_answer] sample_receiver))
     = [Core_acceptFileRecvRequest 7 5 "/home/u/song.ogg"; stateUpdated]
  /\ state (object_of (acceptRecvRequest [readonly_answer; writable_answer] sample_receiver))
     = tsProcessing.
Proof.
  assert (B : Forall rejected [readonly_answer]).
  { constructor; [split; reflexivity | constructor]. }
  pose proof (acceptRecvRequest_prompts_until_writable
                sample_receiver [readonly_answer] cancel_answer [] B) as Hc.
  pose proof (acceptRecvRequest_prompts_until_writable
                sample_receiver [readonly_answer] writable_answer [] B) as Hw.
  cbv zeta in Hc, Hw.
  destruct Hc as [[Hc1 _] [Hc2 _]].
  destruct Hw as [_ [_ Hw3]].
  destruct (Hw3 eq_refl eq_refl) as [_ [Hw4 [_ Hw5]]].
  split; [reflexivity|].
  split; [exact Hc1|].
  split; [exact (Hc2 eq_refl)|].
  split; [exact Hw4 | exact Hw5].
Defined.

(** From the chat log, the second button of a pending incoming transfer is
    this method. *)
Lemma pressFromHtml_accepts answers r :
  state r = tsPending -> direction r = RECEIVING ->
  pressFromHtml "btnB" answers r = acceptRecvRequest answers r.
Proof.
  intros Hs Hd. unfold pressFromHtml. rewrite Hs, Hd. reflexivity.
Qed.

(** ** Rendering *)

Lemma append_assoc_s (a b c : string) : ((a ++ b) ++ c = a ++ (b ++ c))%string.
Proof. induction a as [|x a IH]; cbn; [reflexivity | rewrite IH; reflexivity]. Qed.

Lemma prefix_append (a post : string) : String.prefix a (a ++ post) = true.
Proof.
  induction a as [|c a IH]; cbn; [destruct post; reflexivity|].
  destruct (ascii_dec c c) as [_ | N]; [exact IH | contradiction].
Qed.

Lemma prefix_split (a s : string) :
  String.prefix a s = true -> exists post, s = (a ++ post)%string.
Proof.
  revert s. induction a as [|c a IH]; intros s H.
  - exists s. reflexivity.
  - destruct s as [|c' s]; cbn in H; [discriminate H|].
    destruct (ascii_dec c c') as [E | N]; [|discriminate H].
    destruct (IH s H) as [post Hp]. exists post. subst. reflexivity.
Qed.

(** [occurs] decides [contains]. *)
Lemma occurs_contains (sub s : string) : occurs sub s = true <-> contains sub s.
Proof.
  split.
  - induction s as [|c s IH]; cbn [occurs]; intros H.
    + rewrite orb_false_r in H. destruct (prefix_split _ _ H) as [post Hp].
      exists EmptyString, post. exact Hp.
    + apply orb_true_iff in H. destruct H as [H | H].
      * destruct (prefix_split _ _ H) as [post Hp].
        exists EmptyString, post. exact Hp.
      * destruct (IH H) as (pre & post & Hp).
        exists (String c pre), post. cbn. rewrite Hp. reflexivity.
  - intros (pre & post & Hp). subst s.
    induction pre as [|c pre IH].
    + cbn [append]. destruct (sub ++ post)%string eqn:E; cbn [occurs];
        rewrite <- E, prefix_append; reflexivity.
    + cbn [append occurs]. rewrite IH. apply orb_true_r.
Qed.

(** C8, as the claim has it.  A pending incoming transfer whose peer has
    paused: the markup holds the grey pause button as its second button and
    no accept button. *)
Lemma remote_paused_pending_has_no_accept :
  let r := set_remotePaused true sample_receiver in
  let q := String (ascii_of_nat 34) EmptyString in
  let btnB := fun path : string =>
    "<img src=" ++ q ++ "data:ftrans.1.btnB/png;base64," ++ path ++ q ++ ">" in
  (state r = tsPending /\ direction r = RECEIVING /\ remotePaused r = true)
  /\ ~ contains (btnB ":/ui/fileTransferInstance/acceptFileButton.png")
        (getHtmlImage path_as_base64 r)
  /\ ~ contains ":/ui/fileTransferInstance/acceptFileButton.png"
        (getHtmlImage path_as_base64 r)
  /\ contains (btnB ":/ui/fileTransferInstance/pauseGreyFileButton.png")
       (getHtmlImage path_as_base64 r).
Proof.
  cbv zeta. split; [repeat split|]. split; [|split].
  - intros H. apply occurs_contains in H. vm_compute in H. discriminate H.
  - intros H. apply occurs_contains in H. vm_compute in H. discriminate H.
  - apply occurs_contains. vm_compute. reflexivity.
Qed.

(** C8, amended.  In the states [tsPending], [tsProcessing] and [tsPaused]
    the markup ends with the cell of the two buttons: the element of the
    first button with the stop image, a line break, the element of the
    second button, and the closing tags.  For a pending incoming transfer
    whose peer has not paused, the second button carries the accept image.
    Whenever [remotePaused] is set, in any of the three states and for
    either direction, it carries the grey pause image, whatever the choice
    by state would have been. *)
Theorem getHtmlImage_right_button :
  forall (QImage2base64 : QImage -> QString) (r : FileTransferInstance),
    let q := String (ascii_of_nat 34) EmptyString in
    let lf := String (ascii_of_nat 10) EmptyString in
    let img := fun (btn path : string) =>
      "<img src=" ++ q ++ "data:ftrans." ++ number (id r) ++ "." ++ btn
      ++ "/png;base64," ++ QImage2base64 (QImage_resource path) ++ q ++ ">" in
    let cell := fun right : string =>
      "<div class=button>"
      ++ img "btnA" ":/ui/fileTransferInstance/stopFileButton.png"
      ++ "<br>" ++ img "btnB" right ++ "</div>" ++ lf
      ++ "</td>" ++ lf ++ "</tr>" ++ lf ++ "</table>" ++ lf in
    (state r = tsPending -> direction r = RECEIVING -> remotePaused r = false ->
     exists head,
       getHtmlImage QImage2base64 r
       = head ++ cell ":/ui/fileTransferInstance/acceptFileButton.png")
    /\ (state r = tsPending \/ state r = tsProcessing \/ state r = tsPaused ->
        remotePaused r = true ->
        exists head,
          getHtmlImage QImage2base64 r
          = head ++ cell ":/ui/fileTransferInstance/pauseGreyFileButton.png").
Proof.
  intros b64 r. cbv zeta.
  assert (Form : forall right,
            exists head,
              draw2ButtonsForm b64 r "silver" stopFileButton (QImage_resource right)
              = (head
                 ++ "<div class=button>"
                 ++ ("<img src=" ++ String (ascii_of_nat 34) EmptyString
                     ++ "data:ftrans." ++ number (id r) ++ "." ++ "btnA"
                     ++ "/png;base64,"
                     ++ b64 (QImage_resource ":/ui/fileTransferInstance/stopFileButton.png")
                     ++ String (ascii_of_nat 34) EmptyString ++ ">")
                 ++ "<br>"
                 ++ ("<img src=" ++ String (ascii_of_nat 34) EmptyString
                     ++ "data:ftrans." ++ number (id r) ++ "." ++ "btnB"
                     ++ "/png;base64," ++ b64 (QImage_resource right)
                     ++ String (ascii_of_nat 34) EmptyString ++ ">")
                 ++ "</div>" ++ String (ascii_of_nat 10) EmptyString
                 ++ "</td>" ++ String (ascii_of_nat 10) EmptyString
                 ++ "</tr>" ++ String (ascii_of_nat 10) EmptyString
                 ++ "</table>" ++ String (ascii_of_nat 10) EmptyString)%string).
  { intros right. unfold draw2ButtonsForm, wrapIntoForm, buttonTag, stopFileButton.
    set (content := ("<p>" ++ filename r ++ "</p>" ++ _)%string).
    exists ("<table widht=100% cellspacing=" ++ dquote ++ "0" ++ dquote ++ ">" ++ nl
            ++ "<tr valign=middle>" ++ nl
            ++ insertMiniature b64 r "silver"
            ++ "<td width=100%>" ++ nl
            ++ "<div class=" ++ "silver" ++ ">"
            ++ content
            ++ "</div>" ++ nl
            ++ "</td>" ++ nl
            ++ "<td>" ++ nl)%string.
    unfold dquote, nl. rewrite !append_assoc_s. reflexivity. }
  split.
  - intros Hs Hd Hr. unfold getHtmlImage. rewrite Hs.
    unfold rightBtnImg, stateButton. rewrite Hr, Hs, Hd.
    apply (Form ":/ui/fileTransferInstance/acceptFileButton.png").
  - intros Hs Hr.
    assert (E : getHtmlImage b64 r
                = draw2ButtonsForm b64 r "silver" stopFileButton
                    (QImage_resource ":/ui/fileTransferInstance/pauseGreyFileButton.png")).
    { unfold getHtmlImage, rightBtnImg. rewrite Hr.
      destruct Hs as [H | [H | H]]; rewrite H; reflexivity. }
    rewrite E. apply (Form ":/ui/fileTransferInstance/pauseGreyFileButton.png").
Qed.

(** A pending incoming transfer shows the accept button; a running one
    whose peer has paused shows the grey pause button. *)
Lemma getHtmlImage_right_button_witness :
  contains
    ("<img src=" ++ String (ascii_of_nat 34) EmptyString
     ++ "data:ftrans.1.btnB/png;base64,:/ui/fileTransferInstance/acceptFileButton.png"
     ++ String (ascii_of_nat 34) EmptyString ++ "><" ++ "/div>")
    (getHtmlImage path_as_base64 sample_receiver)
  /\ contains
       ("<img src=" ++ String (ascii_of_nat 34) EmptyString
        ++ "data:ftrans.1.btnB/png;base64,:/ui/fileTransferInstance/pauseGreyFileButton.png"
        ++ String (ascii_of_nat 34) EmptyString ++ "><" ++ "/div>")
       (getHtmlImage path_as_base64
          (set_remotePaused true (set_state tsProcessing sample_receiver))).
Proof.
  pose proof (getHtmlImage_right_button path_as_base64 sample_receiver) as H1.
  pose proof (getHtmlImage_right_button path_as_base64
                (set_remotePaused true (set_state tsProcessing sample_receiver))) as H2.
  cbv zeta in H1, H2.
  destruct H1 as [H1 _]. destruct H2 as [_ H2].
  destruct (H1 eq_refl eq_refl eq_refl) as [h1 E1].
  destruct (H2 (or_intror (or_introl eq_refl)) eq_refl) as [h2 E2].
  split.
  - rewrite E1.
    exists (h1 ++ "<div class=button>"
            ++ "<img src=" ++ String (ascii_of_nat 34) EmptyString
            ++ "data:ftrans.1.btnA/png;base64,:/ui/fileTransferInstance/stopFileButton.png"
            ++ String (ascii_of_nat 34) EmptyString ++ ">" ++ "<br>")%string.
    exists (String (ascii_of_nat 10) EmptyString
            ++ "</td>" ++ String (ascii_of_nat 10) EmptyString
            ++ "</tr>" ++ String (ascii_of_nat 10) EmptyString
            ++ "</table>" ++ String (ascii_of_nat 10) EmptyString)%string.
    rewrite !append_assoc_s. reflexivity.
  - rewrite E2.
    exists (h2 ++ "<div class=button>"
            ++ "<img src=" ++ String (ascii_of_nat 34) EmptyString
            ++ "data:ftrans.1.btnA/png;base64,:/ui/fileTransferInstance/stopFileButton.png"
            ++ String (ascii_of_nat 34) EmptyString ++ ">" ++ "<br>")%string.
    exists (String (ascii_of_nat 10) EmptyString
            ++ "</td>" ++ String (ascii_of_nat 10) EmptyString
            ++ "</tr>" ++ String (ascii_of_nat 10) EmptyString
            ++ "</table>" ++ String (ascii_of_nat 10) EmptyString)%string.
    rewrite !append_assoc_s. reflexivity.
Defined.

(** ** Byte-size formatting *)

Section SizeFormat.

Local Open Scope Z_scope.

(** [log1024] is the exponent of the largest power of 1024 below or at
    the size. *)
Lemma log1024_spec n :
  1 <= n -> 1024 ^ log1024 n <= n < 1024 ^ (log1024 n + 1).
Proof.
  intros Hn. unfold log1024.
  pose proof (Z.log2_spec n ltac:(lia)) as [Lo Hi].
  pose proof (Z.log2_nonneg n) as L0.
  set (l := Z.log2 n) in *.
  pose proof (Z.div_mod l 10 ltac:(lia)) as D.
  pose proof (Z.mod_pos_bound l 10 ltac:(lia)) as M.
  set (k := l / 10) in *.
  assert (K0 : 0 <= k) by (apply Z.div_pos; lia).
  change 1024 with (2 ^ 10).
  rewrite <- !Z.pow_mul_r by lia.
  split.
  - apply Z.le_trans with (2 ^ l); [|exact Lo].
    apply Z.pow_le_mono_r; lia.
  - apply Z.lt_le_trans with (2 ^ Z.succ l); [exact Hi|].
    apply Z.pow_le_mono_r; lia.
Qed.

Lemma size_exp_range n : 0 <= size_exp n <= 4.
Proof.
  unfold size_exp. destruct (n =? 0); [lia|].
  cbn [List.length suffix]. unfold log1024.
  pose proof (Z.log2_nonneg n).
  assert (0 <= Z.log2 n / 10) by (apply Z.div_pos; lia). lia.
Qed.

Lemma size_exp_small n : 1 <= n < 1024 ^ 5 -> size_exp n = log1024 n.
Proof.
  intros [Lo Hi]. unfold size_exp.
  destruct (Z.eqb_spec n 0) as [E|_]; [lia|].
  cbn [List.length suffix]. unfold log1024.
  assert (Z.log2 n < 50).
  { apply Z.log2_lt_pow2; [lia|]. change (2 ^ 50) with (1024 ^ 5). exact Hi. }
  assert (Z.log2 n / 10 < 5) by (apply Z.div_lt_upper_bound; lia). lia.
Qed.

Lemma size_exp_large n : 1024 ^ 5 <= n -> size_exp n = 4.
Proof.
  intros Lo. unfold size_exp.
  destruct (Z.eqb_spec n 0) as [E|_]; [subst; cbn in Lo; lia|].
  cbn [List.length suffix]. unfold log1024.
  assert (50 <= Z.log2 n).
  { apply Z.log2_le_pow2; [cbn in Lo; lia|]. change (2 ^ 50) with (1024 ^ 5). exact Lo. }
  assert (5 <= Z.log2 n / 10) by (apply Z.div_le_lower_bound; lia). lia.
Qed.

(** [round_half_even] is within a half of the quotient. *)
Lemma round_half_even_nearest num den :
  0 < den ->
  2 * Z.abs (num - round_half_even num den * den) <= den.
Proof.
  intros Hd. unfold round_half_even.
  pose proof (Z.div_mod num den ltac:(lia)) as D.
  pose proof (Z.mod_pos_bound num den Hd) as M.
  set (q := num / den) in *. set (m := num mod den) in *.
  destruct (Z.ltb_spec (2 * m) den); [nia|].
  destruct (Z.ltb_spec den (2 * m)); [nia|].
  destruct (Z.even q); nia.
Qed.

Lemma round_half_even_nonneg num den :
  0 <= num -> 0 < den -> 0 <= round_half_even num den.
Proof.
  intros Hn Hd. unfold round_half_even.
  assert (0 <= num / den) by (apply Z.div_pos; lia).
  destruct (2 * (num mod den) <? den); [lia|].
  destruct (den <? 2 * (num mod den)); [lia|].
  destruct (Z.even (num / den)); lia.
Qed.

(** Two digits, for every number a field can hold. *)
Lemma two_digits_length n :
  0 <= n < 100 -> String.length (two_digits n) = 2%nat.
Proof.
  intros H.
  assert (A : forallb (fun k => Nat.eqb (String.length (two_digits (Z.of_nat k))) 2)
                (List.seq 0 100) = true) by (vm_compute; reflexivity).
  rewrite forallb_forall in A.
  specialize (A (Z.to_nat n)).
  rewrite Z2Nat.id in A by lia.
  apply Nat.eqb_eq, A, in_seq. lia.
Qed.

Lemma to_double_exact n : n < 2 ^ 53 -> to_double n = n.
Proof.
  intros H. unfold to_double.
  destruct (Z.ltb_spec n (2 ^ 53)) as [_|G]; [reflexivity | lia].
Qed.

Lemma to_double_nonneg n : 0 <= n -> 0 <= to_double n.
Proof.
  intros H. unfold to_double.
  destruct (Z.ltb_spec n (2 ^ 53)) as [_|G]; [exact H|].
  assert (L : 53 <= Z.log2 n).
  { apply Z.log2_le_pow2; [|exact G]. apply Z.lt_le_trans with (2 ^ 53); [reflexivity | exact G]. }
  apply Z.mul_nonneg_nonneg.
  - apply round_half_even_nonneg; [exact H|]. apply Z.pow_pos_nonneg; lia.
  - apply Z.pow_nonneg. lia.
Qed.

End SizeFormat.

(** C7, as the claim has it, at one pebibyte: the exponent is cut off at
    the last suffix, so the unit is TiB and the scaled value is 1024, which
    is not below 1024. *)
Lemma pebibyte_is_1024_TiB :
  size_exp (1024 ^ 5) = 4
  /\ getHumanReadableSize (1024 ^ 5) = "1024.00TiB"
  /\ ~ (1024 ^ size_exp (1024 ^ 5) <= 1024 ^ 5 < 1024 ^ (size_exp (1024 ^ 5) + 1)).
Proof.
  split; [reflexivity|]. split; [vm_compute; reflexivity|].
  vm_compute. intros [_ H]. discriminate H.
Qed.

(** C7, amended.  For a size of at least one byte and below [1024^5], the
    unit is the one of B, kiB, MiB, GiB, TiB in which the scaled value is at
    least 1 and below 1024.  Zero is shown in B.  From [1024^5] on the unit
    stays TiB and the scaled value is 1024 or more.  In every case the text
    is the scaled value to the nearest hundredth, written with its integer
    part, a point and two digits, followed by the suffix of the unit; sizes
    below [2^53] enter the scaling unrounded.  In particular 0 gives
    "0.00B", 1024 gives "1.00kiB", 1536 gives "1.50kiB" and 1048576 gives
    "1.00MiB". *)
Theorem getHumanReadableSize_unit :
  forall size : Z,
    0 <= size < 2 ^ 64 ->
    let k := size_exp size in
    let h := hundredths (to_double size) (1024 ^ k) in
    0 <= k <= 4
    /\ 0 <= h
    /\ (1 <= size < 1024 ^ 5 -> 1024 ^ k <= size < 1024 ^ (k + 1))
    /\ (size = 0 -> k = 0)
    /\ (1024 ^ 5 <= size -> k = 4 /\ 1024 * 1024 ^ k <= size)
    /\ getHumanReadableSize size
       = number (h / 100) ++ "." ++ two_digits (h mod 100)
         ++ nth (Z.to_nat k) suffix EmptyString
    /\ String.length (two_digits (h mod 100)) = 2%nat
    /\ 2 * Z.abs (100 * to_double size - h * 1024 ^ k) <= 1024 ^ k
    /\ (size < 2 ^ 53 -> to_double size = size)
    /\ getHumanReadableSize 0 = "0.00B"
    /\ getHumanReadableSize 1024 = "1.00kiB"
    /\ getHumanReadableSize 1536 = "1.50kiB"
    /\ getHumanReadableSize 1048576 = "1.00MiB".
Proof.
  intros size Hsize. cbv zeta.
  pose proof (size_exp_range size) as K.
  assert (P : 0 < 1024 ^ size_exp size) by (apply Z.pow_pos_nonneg; lia).
  split; [exact K|]. split.
  { unfold hundredths. apply round_half_even_nonneg; [|exact P].
    pose proof (to_double_nonneg size (proj1 Hsize)). lia. }
  split.
  { intros Hs. rewrite (size_exp_small size Hs). apply log1024_spec. lia. }
  split.
  { intros ->. reflexivity. }
  split.
  { intros Hs. rewrite (size_exp_large size Hs). split; [reflexivity|].
    change (1024 * 1024 ^ 4) with (1024 ^ 5). exact Hs. }
  split.
  { unfold getHumanReadableSize, setNum_f2. rewrite !append_assoc_s. reflexivity. }
  split.
  { apply two_digits_length. apply Z.mod_pos_bound. lia. }
  split.
  { unfold hundredths. apply round_half_even_nearest. exact P. }
  split.
  { apply to_double_exact. }
  repeat split; reflexivity.
Qed.

(** 1536 bytes are one and a half kiB. *)
Lemma getHumanReadableSize_unit_witness :
  size_exp 1536 = 1
  /\ (1024 ^ 1 <= 1536 < 1024 ^ 2)
  /\ getHumanReadableSize 1536 = "1.50kiB".
Proof.
  pose proof (getHumanReadableSize_unit 1536) as H. cbv zeta in H.
  destruct H as [_ [_ [Hb [_ [_ [_ [_ [_ [_ [_ [_ [Hx _]]]]]]]]]]]].
  - vm_compute. split; [discriminate | reflexivity].
  - split; [reflexivity|]. split; [|exact Hx].
    apply Hb. vm_compute. split; [discriminate | reflexivity].
Defined.


(** * Further properties of the code *)

(** ** Clicks *)

Lemma terminal_guard r :
  terminal r ->
  TransfState_eqb (state r) tsFinished || TransfState_eqb (state r) tsCanceled = true.
Proof. intros [H | H]; rewrite H; reflexivity. Qed.

Lemma not_terminal_guard r :
  ~ terminal r ->
  TransfState_eqb (state r) tsFinished || TransfState_eqb (state r) tsCanceled = false.
Proof.
  unfold terminal. intros H.
  destruct (state r); try reflexivity; exfalso; apply H; auto.
Qed.

(** X1.  Once the state is [tsCanceled] or [tsFinished], a click does
    nothing, whichever button code it carries: the object is unchanged, the
    core is not called, nothing is emitted and no dialog opens. *)
Theorem pressFromHtml_terminal_noop :
  forall (code : QString) (answers : list DialogAnswer) (r : FileTransferInstance),
    terminal r -> pressFromHtml code answers r = Returned r [].
Proof.
  intros code answers r H. unfold pressFromHtml.
  rewrite (terminal_guard r H). reflexivity.
Qed.

Lemma pressFromHtml_terminal_noop_witness :
  pressFromHtml "btnA" [writable_answer] (set_state tsFinished sample_receiver)
  = Returned (set_state tsFinished sample_receiver) [].
Proof.
  apply (pressFromHtml_terminal_noop "btnA" [writable_answer]
           (set_state tsFinished sample_receiver)).
  right. reflexivity.
Defined.

(** X2.  A click whose code is neither "btnA" nor "btnB" does nothing, in
    every state and direction. *)
Theorem pressFromHtml_unknown_code :
  forall (code : QString) (answers : list DialogAnswer) (r : FileTransferInstance),
    code <> "btnA" -> code <> "btnB" ->
    pressFromHtml code answers r = Returned r [].
Proof.
  intros code answers r HA HB. unfold pressFromHtml.
  apply String.eqb_neq in HA. apply String.eqb_neq in HB. rewrite HA, HB.
  destruct (TransfState_eqb (state r) tsFinished || TransfState_eqb (state r) tsCanceled);
    [reflexivity|].
  destruct (direction r); reflexivity.
Qed.

Lemma pressFromHtml_unknown_code_witness :
  pressFromHtml "btnC" [] sample_widget = Returned sample_widget [].
Proof.
  apply (pressFromHtml_unknown_code "btnC" [] sample_widget);
    intros H; discriminate H.
Defined.

Lemma own_identity_matches r :
  mismatch r (friendId r) (fileNum r) (direction r) = false.
Proof. apply mismatch_false. reflexivity. Qed.

(** [rejectRecvRequest], with the slot it replays run through. *)
Lemma rejectRecvRequest_result r :
  rejectRecvRequest r
  = (set_state tsCanceled (set_state tsCanceled (set_coreConnected false r)),
     [Core_rejectFileRecvRequest (friendId r) (fileNum r); stateUpdated; stateUpdated]).
Proof.
  unfold rejectRecvRequest, onFileTransferCancelled. run_action.
  rewrite own_identity_matches. reflexivity.
Qed.

(** X3.  In a state that is not terminal the first button ends the
    transfer: the method returns with the state at [tsCanceled] and has
    called the core exactly once, [cancelFileSend] for an outgoing transfer
    and [rejectFileRecvRequest] for an incoming one (whatever its state,
    pending or running).  The incoming widget is detached by it; the
    outgoing one keeps the connection it had. *)
Theorem pressFromHtml_stop_button :
  forall (answers : list DialogAnswer) (r : FileTransferInstance),
    ~ terminal r ->
    let o := pressFromHtml "btnA" answers r in
    o = Returned (object_of o) (effects_of o)
    /\ state (object_of o) = tsCanceled
    /\ filter is_core_request (effects_of o) = [stop_request r]
    /\ coreConnected (object_of o)
       = match direction r with
         | SENDING => coreConnected r
         | RECEIVING => false
         end.
Proof.
  intros answers r H. cbv zeta. unfold pressFromHtml, stop_request.
  rewrite (not_terminal_guard r H).
  destruct (direction r); cbn -[rejectRecvRequest].
  - repeat split.
  - rewrite rejectRecvRequest_result. repeat split.
Qed.

Lemma pressFromHtml_stop_button_witness :
  let r := set_state tsProcessing sample_receiver in
  let o := pressFromHtml "btnA" [] r in
  state (object_of o) = tsCanceled
  /\ filter is_core_request (effects_of o) = [Core_rejectFileRecvRequest 7 5]
  /\ coreConnected (object_of o) = false.
Proof.
  intros r o.
  assert (N : ~ terminal r).
  { unfold terminal. cbn. intros [H | H]; discriminate H. }
  destruct (pressFromHtml_stop_button [] r N) as [_ [H1 [H2 H3]]].
  split; [exact H1 | split; [exact H2 | exact H3]].
Defined.

(** X4.  A rejection replays the cancellation slot before it sets the state
    itself, so the host view is told of the change twice for the one
    request to the core; the object ends cancelled and detached and is
    otherwise as it was. *)
Theorem rejectRecvRequest_signals_twice :
  forall r : FileTransferInstance,
    let r' := fst (rejectRecvRequest r) in
    snd (rejectRecvRequest r)
      = [Core_rejectFileRecvRequest (friendId r) (fileNum r);
         stateUpdated; stateUpdated]
    /\ List.length (filter is_stateUpdated (snd (rejectRecvRequest r))) = 2%nat
    /\ List.length (filter is_core_request (snd (rejectRecvRequest r))) = 1%nat
    /\ r' = set_coreConnected false (set_state tsCanceled r).
Proof.
  intros r. cbv zeta. rewrite rejectRecvRequest_result. cbn. repeat split.
Qed.

(** ** More on progress notifications *)

Lemma secsTo_within_second a b :
  - (2 ^ 31 * 1000) <= b - a < 1000 -> in_int (secsTo a b) /\ secsTo a b <= 0.
Proof.
  intros H. unfold secsTo, in_int.
  change (2 ^ 31) with 2147483648 in *.
  destruct (Z.le_gt_cases 0 (b - a)) as [P | N].
  - rewrite Z.quot_small by lia. lia.
  - replace (b - a) with (- (a - b)) by lia.
    rewrite Z.quot_opp_l by lia.
    rewrite Z.quot_div_nonneg by lia.
    assert (0 <= (a - b) / 1000) by (apply Z.div_pos; lia).
    assert ((a - b) / 1000 <= 2147483648) by (apply Z.div_le_upper_bound; lia).
    lia.
Qed.

(** X5.  A progress notification that arrives before a whole second has
    passed since the last update, or with the clock behind it, is ignored
    altogether: no field is written, nothing is logged or emitted, even when
    it reports new bytes. *)
Theorem onFileTransferInfo_same_second :
  forall (env : Env) (f k total sent : Z) (d : FileDirection)
         (r : FileTransferInstance),
    - (2 ^ 31 * 1000) <= currentDateTime env - lastUpdate r < 1000 ->
    onFileTransferInfo env f k total sent d r = (r, []).
Proof.
  intros env f k total sent d r H.
  destruct (secsTo_within_second _ _ H) as [R L].
  unfold onFileTransferInfo.
  destruct (mismatch r f k d); [reflexivity|].
  unfold info_timediff. rewrite (to_int_id _ R).
  destruct (Z.leb_spec (secsTo (lastUpdate r) (currentDateTime env)) 0) as [_|G];
    [reflexivity | lia].
Qed.

Lemma onFileTransferInfo_same_second_witness :
  onFileTransferInfo (at_clock 1000999) 7 3 4096 2048 SENDING sample_widget
  = (sample_widget, []).
Proof.
  apply (onFileTransferInfo_same_second (at_clock 1000999) 7 3 4096 2048 SENDING
           sample_widget).
  vm_compute. split; [discriminate | reflexivity].
Defined.

(** X6.  A progress notification never moves the state machine: whatever
    it carries, the state, the remote-pause flag, the save path, the
    picture, the connection to the core and the constant members are after
    the slot what they were before. *)
Theorem onFileTransferInfo_frame :
  forall (env : Env) (f k total sent : Z) (d : FileDirection)
         (r : FileTransferInstance),
    let r' := fst (onFileTransferInfo env f k total sent d r) in
    state r' = state r
    /\ remotePaused r' = remotePaused r
    /\ savePath r' = savePath r
    /\ pic r' = pic r
    /\ coreConnected r' = coreConnected r
    /\ constants_of r' = constants_of r.
Proof.
  intros env f k total sent d r. cbv zeta. unfold onFileTransferInfo.
  destruct (mismatch r f k d); [repeat split|].
  destruct (info_timediff r (currentDateTime env) <=? 0); [repeat split|].
  destruct (info_diff r sent <? 0);
    destruct (info_rawspeed r (currentDateTime env) sent =? 0);
    run_action; repeat split.
Qed.

(** A byte count below the baseline gives a throughput of zero. *)
Lemma backwards_rawspeed_zero r now sent :
  0 < info_timediff r now -> info_diff r sent < 0 -> info_rawspeed r now sent = 0.
Proof.
  intros Ht Hd. unfold info_rawspeed.
  destruct (Z.ltb_spec (info_diff r sent) 0) as [_|G]; [|lia].
  rewrite Z.quot_0_l by lia. reflexivity.
Qed.

(** X7.  One run of the progress slot has at most one effect: nothing, or
    the warning about a negative speed, or the change signal; never the
    warning and the signal together.  The signal is emitted exactly when the
    baseline has been moved to this notification. *)
Theorem onFileTransferInfo_effects :
  forall (env : Env) (f k total sent : Z) (d : FileDirection)
         (r : FileTransferInstance),
    let r' := fst (onFileTransferInfo env f k total sent d r) in
    let t := snd (onFileTransferInfo env f k total sent d r) in
    (t = [] /\ lastUpdate r' = lastUpdate r /\ lastBytesSent r' = lastBytesSent r)
    \/ (t = [qWarning negative_speed_msg]
        /\ lastUpdate r' = lastUpdate r /\ lastBytesSent r' = lastBytesSent r)
    \/ (t = [stateUpdated]
        /\ lastUpdate r' = currentDateTime env /\ lastBytesSent r' = sent).
Proof.
  intros env f k total sent d r. cbv zeta. unfold onFileTransferInfo.
  destruct (mismatch r f k d); [left; repeat split|].
  destruct (Z.leb_spec (info_timediff r (currentDateTime env)) 0) as [_|Ht];
    [left; repeat split|].
  destruct (Z.ltb_spec (info_diff r sent) 0) as [Hd|Hd].
  - rewrite (backwards_rawspeed_zero r _ sent Ht Hd). run_action.
    right. left. repeat split.
  - destruct (info_rawspeed r (currentDateTime env) sent =? 0); run_action.
    + left. repeat split.
    + right. right. repeat split.
Qed.

Lemma mmss_of_seconds e :
  toString_mmss (addSecs (QTime_hm 0 0) e) = mmss_within_hour (e mod 3600).
Proof.
  unfold toString_mmss, addSecs, QTime_hm, mmss_within_hour.
  change (0 * 3600 + 0 * 60 + e) with e.
  pose proof (Z.div_mod e 86400 ltac:(lia)) as D1.
  pose proof (Z.mod_pos_bound e 86400 ltac:(lia)) as B1.
  set (x := e mod 86400) in *.
  pose proof (Z.div_mod e 3600 ltac:(lia)) as D2.
  pose proof (Z.mod_pos_bound e 3600 ltac:(lia)) as B2.
  set (y := e mod 3600) in *.
  pose proof (Z.div_mod x 60 ltac:(lia)) as D3.
  pose proof (Z.mod_pos_bound x 60 ltac:(lia)) as B3.
  pose proof (Z.div_mod y 60 ltac:(lia)) as D4.
  pose proof (Z.mod_pos_bound y 60 ltac:(lia)) as B4.
  pose proof (Z.div_mod (x / 60) 60 ltac:(lia)) as D5.
  pose proof (Z.mod_pos_bound (x / 60) 60 ltac:(lia)) as B5.
  assert (Ey : 0 <= y / 60 < 60).
  { split; [apply Z.div_pos; lia | apply Z.div_lt_upper_bound; lia]. }
  assert (M : (x / 60) mod 60 = y / 60 /\ x mod 60 = y mod 60) by lia.
  destruct M as [M1 M2]. rewrite M1, M2. reflexivity.
Qed.

(** X8.  When the slot runs to its end, the estimate shown is the
    remaining bytes over the throughput, in whole seconds, reduced modulo
    one hour and written as minutes and seconds: an estimate of an hour or
    more shows only what exceeds the full hours.  The quotient is taken as
    it is when the remaining bytes are in range and it fits an [int]. *)
Theorem onFileTransferInfo_eta :
  forall (env : Env) (f k total sent : Z) (d : FileDirection)
         (r : FileTransferInstance),
    (f, k, d) = identity_of r ->
    0 < info_timediff r (currentDateTime env) ->
    info_rawspeed r (currentDateTime env) sent <> 0 ->
    let q := info_rawspeed r (currentDateTime env) sent in
    let e := info_etaSecs total sent q in
    eta (fst (onFileTransferInfo env f k total sent d r))
      = mmss_within_hour (e mod 3600)
    /\ (in_int64 (total - sent) -> in_int (Z.quot (total - sent) q) ->
        e = Z.quot (total - sent) q).
Proof.
  intros env f k total sent d r Hid Ht Hq. cbv zeta.
  rewrite (onFileTransferInfo_matched env f k total sent d r Hid Ht). cbv zeta.
  destruct (Z.eqb_spec (info_rawspeed r (currentDateTime env) sent) 0) as [E|_];
    [contradiction|].
  split.
  - cbn [fst eta set_lastBytesSent set_lastUpdate set_eta].
    apply mmss_of_seconds.
  - intros H1 H2. unfold info_etaSecs.
    rewrite (to_int64_id (total - sent) H1). apply to_int_id. exact H2.
Qed.

(** 3 MiB to go at 409 bytes a second: 7691 seconds, shown as 08:11. *)
Lemma onFileTransferInfo_eta_witness :
  info_etaSecs 3147776 2048 409 = 7691
  /\ eta (fst (onFileTransferInfo (at_clock 1005000) 7 3 3147776 2048 SENDING
                 sample_widget))
     = "08:11".
Proof.
  assert (Q : info_rawspeed sample_widget 1005000 2048 <> 0).
  { vm_compute. discriminate. }
  destruct (onFileTransferInfo_eta (at_clock 1005000) 7 3 3147776 2048 SENDING
              sample_widget eq_refl eq_refl Q) as [H1 H2].
  split; [|exact H1].
  apply H2; vm_compute; split; (discriminate || reflexivity).
Defined.

(** ** The finished notification and the preview *)

(** X9.  A matched "finished" notification always ends in [tsFinished],
    detached, with one change signal, whatever happens to the preview.  The
    picture is replaced only for an incoming transfer whose saved file
    opens, is at most 25 MiB (26214400 bytes, the bound included) and
    decodes as an image; in every other case, a file of 26214401 bytes among
    them, the picture stays what it was and nothing is reported. *)
Theorem onFileTransferFinished_preview :
  forall (env : Env) (File : ToxFile.t) (r : FileTransferInstance),
    identity (fileTransferFinished File) = identity_of r ->
    let r' := fst (onFileTransferFinished env File r) in
    let shown :=
      match direction r with
      | RECEIVING =>
          previewOpens env && (previewSize env <=? 26214400)
          && loadFromData env (previewData env)
      | SENDING => false
      end in
    snd (onFileTransferFinished env File r) = [stateUpdated]
    /\ state r' = tsFinished
    /\ coreConnected r' = false
    /\ pic r' = (if shown then QImage_scaled (previewData env) 50 else pic r)
    /\ (26214400 < previewSize env -> pic r' = pic r).
Proof.
  intros env File r Hid. cbv zeta.
  assert (Hd : ToxFile.direction File = direction r).
  { cbn [identity] in Hid. unfold identity_of in Hid. congruence. }
  apply mismatch_false in Hid.
  unfold onFileTransferFinished. rewrite Hid, Hd.
  change (1024 * 1024 * 25) with 26214400.
  destruct (direction r); run_action.
  - repeat split.
  - destruct (previewOpens env); cbn; [|repeat split].
    destruct (Z.leb_spec (previewSize env) 26214400) as [L|G]; cbn.
    + destruct (loadFromData env (previewData env)); cbn; repeat split; lia.
    + repeat split.
Qed.

(** A file one byte over the bound, which would decode, is not previewed. *)
Lemma onFileTransferFinished_preview_witness :
  let env := mkEnv 1009000 true 26214401 "PNG" (fun _ => true) in
  let r' := fst (onFileTransferFinished env sample_incoming sample_receiver) in
  state r' = tsFinished /\ pic r' = QImage_null.
Proof.
  intros env r'.
  destruct (onFileTransferFinished_preview env sample_incoming sample_receiver eq_refl)
    as [_ [Hs [_ [_ Hp]]]].
  split; [exact Hs|]. apply Hp. reflexivity.
Defined.

(** ** Construction *)

(** X10.  Widgets built one after the other get different ids: the first
    takes the value of the counter, the second the next one, and only at
    the top of the [uint] range does the counter start again from zero. *)
Theorem FileTransferInstance_new_ids :
  forall (Idconter : Z) (now1 now2 : QDateTime)
         (dec1 dec2 : QByteArray -> bool) (File1 File2 : ToxFile.t),
    0 <= Idconter < 2 ^ 32 ->
    let first := FileTransferInstance_new Idconter now1 dec1 File1 in
    let second := FileTransferInstance_new (snd first) now2 dec2 File2 in
    id (fst first) = Idconter
    /\ id (fst second) <> id (fst first)
    /\ 0 <= snd second < 2 ^ 32
    /\ (Idconter < 2 ^ 32 - 1 -> id (fst second) = Idconter + 1)
    /\ (Idconter = 2 ^ 32 - 1 -> id (fst second) = 0).
Proof.
  intros c now1 now2 dec1 dec2 F1 F2 Hc. cbv zeta.
  unfold FileTransferInstance_new. cbn [fst snd id]. unfold to_uint.
  change (2 ^ 32) with 4294967296 in *.
  split; [reflexivity|].
  pose proof (Z.mod_pos_bound (c + 1) 4294967296 ltac:(lia)) as B1.
  pose proof (Z.mod_pos_bound ((c + 1) mod 4294967296 + 1) 4294967296 ltac:(lia)) as B2.
  destruct (Z.eq_dec c 4294967295) as [E | N].
  - subst c. change ((4294967295 + 1) mod 4294967296) with 0.
    repeat split; try lia; try (apply B2).
  - rewrite (Z.mod_small (c + 1)) in * by lia.
    repeat split; try lia; try (apply B2).
Qed.

Lemma FileTransferInstance_new_ids_witness :
  let first := FileTransferInstance_new 4294967295 1000000 never_decodes sample_file in
  let second := FileTransferInstance_new (snd first) 1000000 never_decodes sample_incoming in
  id (fst first) = 4294967295 /\ id (fst second) = 0.
Proof.
  intros first second.
  destruct (FileTransferInstance_new_ids 4294967295 1000000 1000000
              never_decodes never_decodes sample_file sample_incoming)
    as [H1 [_ [_ [_ H5]]]].
  - vm_compute. split; [discriminate | reflexivity].
  - split; [exact H1 | apply H5; reflexivity].
Defined.

(** X11.  A new widget is pending with nothing transferred, and only an
    outgoing one can carry a picture (that of the file it sends, when the
    file decodes).  Until the transfer is accepted its second button cannot
    pause: on a new outgoing widget it is drawn as the grey pause button
    and a click on it changes nothing and reaches nobody. *)
Theorem new_widget_is_pending :
  forall (Idconter : Z) (now : QDateTime) (dec : QByteArray -> bool)
         (File : ToxFile.t) (answers : list DialogAnswer),
    let r := fst (FileTransferInstance_new Idconter now dec File) in
    state r = tsPending /\ remotePaused r = false /\ lastBytesSent r = 0
    /\ (ToxFile.direction File = RECEIVING -> pic r = QImage_null)
    /\ (ToxFile.direction File = SENDING ->
        (pic r <> QImage_null <-> dec (ToxFile.file File) = true)
        /\ rightBtnImg r = pauseGreyFileButton
        /\ pressFromHtml "btnB" answers r = Returned r []).
Proof.
  intros c now dec F answers. cbv zeta. unfold FileTransferInstance_new.
  cbn [fst state remotePaused lastBytesSent pic].
  split; [reflexivity|]. split; [reflexivity|]. split; [reflexivity|].
  split.
  - intros H. rewrite H. reflexivity.
  - intros H. rewrite H. split; [|split].
    + destruct (dec (ToxFile.file F)); split; intros G;
        try reflexivity; try discriminate G; try (intros X; discriminate X).
      exfalso. apply G. reflexivity.
    + unfold rightBtnImg, stateButton. cbn. reflexivity.
    + unfold pressFromHtml. cbn. reflexivity.
Qed.

Lemma new_widget_is_pending_witness :
  let r := fst (FileTransferInstance_new 0 1000000 never_decodes sample_file) in
  rightBtnImg r = pauseGreyFileButton
  /\ pressFromHtml "btnB" [] r = Returned r [].
Proof.
  intros r.
  destruct (new_widget_is_pending 0 1000000 never_decodes sample_file [])
    as [_ [_ [_ [_ H]]]].
  destruct (H eq_refl) as [_ [H1 H2]].
  split; [exact H1 | exact H2].
Defined.

(** ** Runs *)

Lemma slot_constants env n r :
  constants_of (fst (slot env n r)) = constants_of r.
Proof.
  destruct n; cbn [slot].
  - unfold onFileTransferInfo.
    destruct (mismatch r FriendId FileNum Direction); [reflexivity|].
    destruct (info_timediff r (currentDateTime env) <=? 0); [reflexivity|].
    destruct (info_diff r BytesSent <? 0);
      destruct (info_rawspeed r (currentDateTime env) BytesSent =? 0);
      run_action; reflexivity.
  - unfold onFileTransferCancelled.
    destruct (mismatch r FriendId FileNum Direction); reflexivity.
  - unfold onFileTransferFinished.
    destruct (mismatch r _ _ _); [reflexivity|].
    run_action. destruct (ToxFile.direction File); [reflexivity|].
    destruct (previewOpens env && (previewSize env <=? 26214400)); [|reflexivity].
    destruct (loadFromData env (previewData env)); reflexivity.
  - unfold onFileTransferAccepted. destruct (mismatch r _ _ _); reflexivity.
  - unfold onFileTransferRemotePausedUnpaused.
    destruct (mismatch r _ _ _); reflexivity.
  - unfold onFileTransferPaused.
    destruct (mismatch r FriendId FileNum Direction); reflexivity.
Qed.

Lemma acceptRecvRequest_constants answers r :
  constants_of (object_of (acceptRecvRequest answers r)) = constants_of r.
Proof.
  unfold acceptRecvRequest. destruct (choosePath (filename r) answers); reflexivity.
Qed.

Lemma step_constants o r : constants_of (step o r) = constants_of r.
Proof.
  destruct o; cbn [step].
  - unfold deliver. destruct (coreConnected r); [apply slot_constants | reflexivity].
  - reflexivity.
  - rewrite rejectRecvRequest_result. reflexivity.
  - apply acceptRecvRequest_constants.
  - rewrite (proj1 (pauseResume_keeps_object r)). reflexivity.
  - rewrite (proj2 (pauseResume_keeps_object r)). reflexivity.
  - unfold pressFromHtml.
    destruct (TransfState_eqb (state r) tsFinished || TransfState_eqb (state r) tsCanceled);
      [reflexivity|].
    destruct (direction r) eqn:D.
    + destruct (code =? "btnA")%string; [reflexivity|].
      destruct (code =? "btnB")%string; [|reflexivity].
      unfold returned. cbn [object_of].
      rewrite (proj2 (pauseResume_keeps_object r)). reflexivity.
    + destruct (code =? "btnA")%string.
      { unfold returned. rewrite rejectRecvRequest_result. reflexivity. }
      destruct (code =? "btnB")%string; [|reflexivity].
      destruct (TransfState_eqb (state r) tsPending).
      * apply acceptRecvRequest_constants.
      * unfold returned. cbn [object_of].
        rewrite (proj1 (pauseResume_keeps_object r)). reflexivity.
Qed.

(** X12.  The id, the direction, the file name and the (friend, file
    number) of a widget are fixed at construction: no notification and no
    user action, in any order and with any arguments, changes them, so the
    widget answers to the same identity for its whole life. *)
Theorem identity_is_constant :
  forall (ops : list Op) (r : FileTransferInstance),
    constants_of (run ops r) = constants_of r
    /\ identity_of (run ops r) = identity_of r.
Proof.
  intros ops.
  assert (C : forall r, constants_of (run ops r) = constants_of r).
  { induction ops as [|o ops IH]; intros r; [reflexivity|].
    cbn. rewrite IH. apply step_constants. }
  intros r. split; [apply C|].
  specialize (C r). unfold constants_of in C. unfold identity_of. congruence.
Qed.

Lemma step_final o r :
  from_outside o -> terminal r -> coreConnected r = false -> step o r = r.
Proof.
  intros Ho Ht Hc. destruct o; cbn in Ho; try contradiction; cbn [step].
  - rewrite detached_is_frozen by exact Hc. reflexivity.
  - unfold pressFromHtml. rewrite (terminal_guard r Ht). reflexivity.
Qed.

(** X13.  A widget that is in a terminal state and detached is final for
    the outside world: no sequence of notifications and clicks changes any
    of its fields. *)
Theorem terminal_detached_is_final :
  forall (ops : list Op) (r : FileTransferInstance),
    Forall from_outside ops -> terminal r -> coreConnected r = false ->
    run ops r = r.
Proof.
  induction ops as [|o ops IH]; intros r Hops Ht Hc; [reflexivity|].
  inversion Hops as [|? ? Ho Hrest]; subst. cbn.
  rewrite (step_final o r Ho Ht Hc). apply IH; assumption.
Qed.

(** The widget of a rejected transfer ignores a late "accepted" and a click. *)
Lemma terminal_detached_is_final_witness :
  let r := fst (rejectRecvRequest sample_receiver) in
  run [Notify (at_clock 1002000) (fileTransferAccepted sample_incoming);
       Press "btnB" [writable_answer]] r = r.
Proof.
  intros r.
  apply (terminal_detached_is_final
           [Notify (at_clock 1002000) (fileTransferAccepted sample_incoming);
            Press "btnB" [writable_answer]] r).
  - repeat constructor.
  - left. reflexivity.
  - reflexivity.
Defined.

(** ** Remote pause *)

(** X14.  While the peer has paused, the local pause button is out of
    action: after a matched remote-pause notification the state is what it
    was, both toggles do nothing and the right button is drawn grey.  The
    matching un-pause undoes the pause exactly, and an "accepted"
    notification also clears the flag, after which a toggle reaches the
    core again. *)
Theorem remote_pause_disables_toggle :
  forall (File : ToxFile.t) (r : FileTransferInstance),
    identity (fileTransferAccepted File) = identity_of r ->
    remotePaused r = false ->
    let p := fst (onFileTransferRemotePausedUnpaused File true r) in
    let u := fst (onFileTransferRemotePausedUnpaused File false p) in
    let a := fst (onFileTransferAccepted File p) in
    state p = state r
    /\ pauseResumeRecv p = (p, []) /\ pauseResumeSend p = (p, [])
    /\ rightBtnImg p = pauseGreyFileButton
    /\ u = r
    /\ pauseResumeSend a
       = (a, [Core_pauseResumeFileSend (friendId r) (fileNum r); stateUpdated]).
Proof.
  intros File r Hid Hr. cbv zeta. cbn [identity] in Hid.
  apply mismatch_false in Hid.
  unfold onFileTransferRemotePausedUnpaused, onFileTransferAccepted.
  rewrite Hid. run_action.
  unfold mismatch. cbn. fold (mismatch r (ToxFile.friendId File)
                                (ToxFile.fileNum File) (ToxFile.direction File)).
  rewrite Hid. cbn.
  split; [reflexivity|].
  split; [unfold pauseResumeRecv; cbn; destruct (state r); reflexivity|].
  split; [unfold pauseResumeSend; cbn; destruct (state r); reflexivity|].
  split; [reflexivity|].
  split; [destruct r; cbn in *; subst; reflexivity|].
  reflexivity.
Qed.

Lemma remote_pause_disables_toggle_witness :
  let r := set_state tsProcessing sample_widget in
  let p := fst (onFileTransferRemotePausedUnpaused sample_file true r) in
  pauseResumeSend p = (p, [])
  /\ fst (onFileTransferRemotePausedUnpaused sample_file false p) = r.
Proof.
  intros r p.
  destruct (remote_pause_disables_toggle sample_file r eq_refl eq_refl)
    as [_ [_ [H1 [_ [H2 _]]]]].
  split; [exact H1 | exact H2].
Defined.

(** ** The probe of the save dialog *)

Lemma loop_effects_prepend e c :
  loop_effects (prepend e c) = (e ++ loop_effects c)%list.
Proof. destruct c; reflexivity. Qed.

(** A file the loop removes was named by an answer and did not exist. *)
Lemma choosePath_removes filename answers p :
  In (QFile_remove p) (loop_effects (choosePath filename answers)) ->
  exists a, In a answers /\ chosen a = p /\ exists_ a = false.
Proof.
  induction answers as [|a rest IH]; cbn [choosePath].
  - cbn. intros [H | []]. discriminate H.
  - destruct (isEmpty (chosen a)).
    { cbn. intros [H | []]. discriminate H. }
    unfold isFileWritable. cbn [fst snd].
    assert (Probe : forall q,
               In (QFile_remove q)
                 (if negb (exists_ a) then [QFile_remove (chosen a)] else []) ->
               chosen a = q /\ exists_ a = false).
    { intros q. destruct (exists_ a); cbn; [intros [] |].
      intros [H | []]. injection H as H. auto. }
    destruct (opens a).
    + cbn [loop_effects]. intros [H | [H | H]]; try discriminate H.
      destruct (Probe p H) as [E1 E2]. exists a. split; [left; reflexivity | auto].
    + rewrite loop_effects_prepend. intros H.
      apply in_app_or in H. destruct H as [H | H].
      * apply in_app_or in H. destruct H as [H | H].
        -- destruct H as [H | [H | H]]; try discriminate H.
           destruct (Probe p H) as [E1 E2].
           exists a. split; [left; reflexivity | auto].
        -- destruct H as [H | []]. discriminate H.
      * destruct (IH H) as (b & Hb & E). exists b. split; [right; exact Hb | exact E].
Qed.

(** X15.  Accepting never deletes a file that was there: every file the
    method removes is a path the user chose in the dialog that did not
    exist before the probe created it. *)
Theorem acceptRecvRequest_removes_only_probes :
  forall (answers : list DialogAnswer) (r : FileTransferInstance) (p : QString),
    In (QFile_remove p) (effects_of (acceptRecvRequest answers r)) ->
    exists a, In a answers /\ chosen a = p /\ exists_ a = false.
Proof.
  intros answers r p H. apply (choosePath_removes (filename r)).
  unfold acceptRecvRequest in H.
  destruct (choosePath (filename r) answers) as [path t | t | t];
    cbn [effects_of loop_effects] in *; try exact H.
  revert H. run_action. intros H. apply in_app_or in H.
  destruct H as [H | [H | [H | []]]]; [exact H | discriminate H | discriminate H].
Qed.

Lemma acceptRecvRequest_removes_only_probes_witness :
  exists a, In a [readonly_answer; writable_answer]
            /\ chosen a = "/proc/song.ogg" /\ exists_ a = false.
Proof.
  apply (acceptRecvRequest_removes_only_probes
           [readonly_answer; writable_answer] sample_receiver "/proc/song.ogg").
  vm_compute. right. right. left. reflexivity.
Defined.

(** ** More on byte sizes *)

Section SizeFormatMore.

Lemma log1024_unique n k :
  0 <= k -> 1024 ^ k <= n < 1024 ^ (k + 1) -> log1024 n = k.
Proof.
  intros Hk [Lo Hi].
  assert (Hn : 1 <= n).
  { pose proof (Z.pow_pos_nonneg 1024 k ltac:(lia) Hk). lia. }
  destruct (log1024_spec n Hn) as [Lo' Hi'].
  assert (L0 : 0 <= log1024 n).
  { unfold log1024. apply Z.div_pos; [apply Z.log2_nonneg | lia]. }
  set (l := log1024 n) in *.
  destruct (Z.lt_trichotomy l k) as [H | [H | H]]; [|exact H|].
  - exfalso.
    assert (1024 ^ (l + 1) <= 1024 ^ k) by (apply Z.pow_le_mono_r; lia). lia.
  - exfalso.
    assert (1024 ^ (k + 1) <= 1024 ^ l) by (apply Z.pow_le_mono_r; lia). lia.
Qed.

Lemma round_half_even_exact m den :
  0 < den -> round_half_even (m * den) den = m.
Proof.
  intros Hd. unfold round_half_even.
  rewrite Z.div_mul by lia. rewrite Z.mod_mul by lia.
  destruct (Z.ltb_spec (2 * 0) den); [reflexivity | lia].
Qed.

Lemma size_exp_mono a b : 0 <= a <= b -> size_exp a <= size_exp b.
Proof.
  intros [Ha Hab]. unfold size_exp.
  destruct (Z.eqb_spec a 0) as [Ea | Na].
  - destruct (b =? 0); [lia|].
    cbn [List.length suffix]. unfold log1024.
    assert (0 <= Z.log2 b / 10) by (apply Z.div_pos; [apply Z.log2_nonneg | lia]).
    lia.
  - destruct (Z.eqb_spec b 0) as [Eb | Nb]; [lia|].
    cbn [List.length suffix]. unfold log1024.
    assert (Z.log2 a / 10 <= Z.log2 b / 10).
    { apply Z.div_le_mono; [lia | apply Z.log2_le_mono; exact Hab]. }
    lia.
Qed.

End SizeFormatMore.

(** X16.  A size that is a whole number [m] of a unit, with [m] from 1 to
    1023, is printed as [m], ".00" and the suffix of that unit; in
    particular every size from 1 to 1023 bytes is printed in B with two
    zero decimals. *)
Theorem getHumanReadableSize_whole_units :
  forall k m : Z,
    0 <= k <= 4 -> 1 <= m < 1024 ->
    getHumanReadableSize (m * 1024 ^ k)
    = number m ++ ".00" ++ nth (Z.to_nat k) suffix EmptyString.
Proof.
  intros k m Hk Hm.
  assert (P : 0 < 1024 ^ k) by (apply Z.pow_pos_nonneg; lia).
  assert (Hi : m * 1024 ^ k < 1024 ^ (k + 1)).
  { rewrite Z.pow_add_r by lia. change (1024 ^ 1) with 1024. nia. }
  assert (Top : 1024 ^ (k + 1) <= 1024 ^ 5) by (apply Z.pow_le_mono_r; lia).
  assert (E : size_exp (m * 1024 ^ k) = k).
  { rewrite size_exp_small by (split; [nia | lia]).
    apply log1024_unique; [lia | split; [nia | exact Hi]]. }
  unfold getHumanReadableSize. rewrite E.
  rewrite to_double_exact
    by (apply Z.lt_le_trans with (1024 ^ 5); [lia | vm_compute; discriminate]).
  unfold setNum_f2, hundredths.
  replace (100 * (m * 1024 ^ k)) with ((100 * m) * 1024 ^ k) by ring.
  rewrite round_half_even_exact by exact P.
  replace (100 * m) with (m * 100) by ring.
  rewrite Z.div_mul by lia. rewrite Z.mod_mul by lia.
  rewrite !append_assoc_s. reflexivity.
Qed.

Lemma getHumanReadableSize_whole_units_witness :
  getHumanReadableSize (512 * 1024 ^ 3) = "512.00GiB".
Proof.
  apply (getHumanReadableSize_whole_units 3 512); lia.
Defined.

(** X17.  The unit never goes down when the size goes up: a larger size is
    printed in the same unit or in a larger one. *)
Theorem size_unit_is_monotone :
  forall a b : Z, 0 <= a <= b -> size_exp a <= size_exp b.
Proof. exact size_exp_mono. Qed.

Lemma size_unit_is_monotone_witness : size_exp 1023 <= size_exp 1024.
Proof. apply (size_unit_is_monotone 1023 1024). lia. Defined.

(** X18.  A negative file size in a matched progress notification that
    passes the guard on the elapsed time (at least one whole second since
    the last update) is not rejected: it is converted to
    [unsigned long long], so the size string shows the value plus [2^64],
    which is at least 8 EiB and is printed in TiB. *)
Theorem negative_filesize_is_shown_huge :
  forall (env : Env) (f k total sent : Z) (d : FileDirection)
         (r : FileTransferInstance),
    (f, k, d) = identity_of r ->
    0 < info_timediff r (currentDateTime env) ->
    - 2 ^ 63 <= total < 0 ->
    size (fst (onFileTransferInfo env f k total sent d r))
      = getHumanReadableSize (total + 2 ^ 64)
    /\ size_exp (total + 2 ^ 64) = 4
    /\ 2 ^ 63 <= total + 2 ^ 64.
Proof.
  intros env f k total sent d r Hid Ht Hneg.
  rewrite (onFileTransferInfo_matched env f k total sent d r Hid Ht). cbv zeta.
  assert (U : to_ulonglong total = total + 2 ^ 64).
  { unfold to_ulonglong.
    change (2 ^ 63) with 9223372036854775808 in *.
    change (2 ^ 64) with 18446744073709551616 in *.
    symmetry. apply (Z.mod_unique_pos total 18446744073709551616 (-1)); lia. }
  rewrite U. split.
  - destruct (info_rawspeed r (currentDateTime env) sent =? 0); reflexivity.
  - change (2 ^ 63) with 9223372036854775808 in *.
    change (2 ^ 64) with 18446744073709551616 in *.
    split; [|lia]. apply size_exp_large. change (1024 ^ 5) with 1125899906842624. lia.
Qed.

Lemma negative_filesize_is_shown_huge_witness :
  size (fst (onFileTransferInfo (at_clock 1005000) 7 3 (-1) 2048 SENDING sample_widget))
  = "16777216.00TiB".
Proof.
  destruct (negative_filesize_is_shown_huge (at_clock 1005000) 7 3 (-1) 2048 SENDING
              sample_widget eq_refl eq_refl) as [H _].
  - vm_compute. split; [discriminate | reflexivity].
  - exact H.
Defined.

(** ** More on the rendering *)

Lemma append_prefix_inj (p s t : string) : (p ++ s = p ++ t)%string -> s = t.
Proof.
  induction p as [|c p IH]; cbn; intros H; [exact H|].
  injection H as H. apply IH. exact H.
Qed.

(** Decimal numerals followed by a point are read back unambiguously. *)
Lemma string_of_uint_dot_inj d1 : forall d2 s1 s2,
  (NilEmpty.string_of_uint d1 ++ "." ++ s1
   = NilEmpty.string_of_uint d2 ++ "." ++ s2)%string ->
  d1 = d2 /\ s1 = s2.
Proof.
  induction d1 as [|d1 IH|d1 IH|d1 IH|d1 IH|d1 IH|d1 IH|d1 IH|d1 IH|d1 IH|d1 IH];
    intros d2 s1 s2 H; destruct d2; cbn in H; try discriminate H;
    injection H as H;
    try (split; [reflexivity | exact H]);
    destruct (IH _ _ _ H) as [E1 E2]; subst; split; reflexivity.
Qed.

Lemma number_dot_inj a b s t :
  0 <= a -> 0 <= b ->
  (number a ++ "." ++ s = number b ++ "." ++ t)%string -> a = b /\ s = t.
Proof.
  intros Ha Hb H. unfold number in H.
  destruct (string_of_uint_dot_inj _ _ _ _ H) as [E1 E2].
  apply DecimalN.Unsigned.to_uint_inj in E1.
  apply Z2N.inj in E1; [|exact Ha|exact Hb]. auto.
Qed.

(** X19.  The click targets of the two-button form are unambiguous: a
    button element names the widget and the button it belongs to, so two
    equal button elements come from widgets with the same id and are the
    same button, whatever images they carry. *)
Theorem buttonTag_identifies_widget :
  forall (QImage2base64 : QImage -> QString) (r1 r2 : FileTransferInstance)
         (btn1 btn2 : string) (img1 img2 : QImage),
    0 <= id r1 -> 0 <= id r2 ->
    btn1 = "btnA" \/ btn1 = "btnB" ->
    btn2 = "btnA" \/ btn2 = "btnB" ->
    buttonTag QImage2base64 r1 btn1 img1 = buttonTag QImage2base64 r2 btn2 img2 ->
    id r1 = id r2 /\ btn1 = btn2.
Proof.
  intros b64 r1 r2 btn1 btn2 img1 img2 H1 H2 B1 B2 H.
  unfold buttonTag in H.
  apply append_prefix_inj in H. apply append_prefix_inj in H.
  apply append_prefix_inj in H.
  destruct (number_dot_inj _ _ _ _ H1 H2 H) as [E1 E2].
  split; [exact E1|].
  destruct B1 as [-> | ->]; destruct B2 as [-> | ->];
    try reflexivity; cbn in E2; discriminate E2.
Qed.

Lemma buttonTag_identifies_widget_witness :
  let b64 := fun _ : QImage => "iVBOR" in
  buttonTag b64 sample_widget "btnB" pauseFileButton
    = buttonTag b64 sample_widget "btnB" pauseGreyFileButton
  /\ id sample_widget = id sample_widget /\ "btnB" = "btnB".
Proof.
  intros b64. split; [reflexivity|].
  apply (buttonTag_identifies_widget b64 sample_widget sample_widget
           "btnB" "btnB" pauseFileButton pauseGreyFileButton).
  - vm_compute. discriminate.
  - vm_compute. discriminate.
  - right. reflexivity.
  - right. reflexivity.
  - reflexivity.
Defined.

(** X20.  In the states [tsCanceled] and [tsFinished] the markup shows no
    statistics: it is determined by the state, the id, the file name, the
    size string and the picture, and is the same whatever the speed, the
    estimate, the bytes transferred, the save path and the remote-pause
    flag are. *)
Theorem getHtmlImage_terminal_frame :
  forall (QImage2base64 : QImage -> QString) (r r' : FileTransferInstance),
    terminal r ->
    state r' = state r -> id r' = id r -> filename r' = filename r ->
    size r' = size r -> pic r' = pic r ->
    getHtmlImage QImage2base64 r' = getHtmlImage QImage2base64 r.
Proof.
  intros b64 r r' Ht Hs Hi Hf Hz Hp.
  unfold getHtmlImage. rewrite Hs.
  destruct Ht as [H | H]; rewrite H;
    unfold drawButtonlessForm, wrapIntoForm, insertMiniature;
    rewrite Hi, Hf, Hz, Hp; reflexivity.
Qed.

Lemma getHtmlImage_terminal_frame_witness :
  let b64 := fun _ : QImage => "iVBOR" in
  let r := set_state tsCanceled sample_widget in
  getHtmlImage b64 (set_remotePaused true (set_speed "409.00B/s" (set_eta "00:05" r)))
  = getHtmlImage b64 r.
Proof.
  intros b64 r.
  apply (getHtmlImage_terminal_frame b64 r
           (set_remotePaused true (set_speed "409.00B/s" (set_eta "00:05" r))));
    try reflexivity.
  left. reflexivity.
Defined.

(** ** After the accept *)

(** X21.  Once an incoming transfer has been accepted with a writable path,
    the second button is the pause button: it is drawn as such unless the
    peer has paused, and a click on it no longer opens the save dialog but
    asks the core to pause, leaving the save path in place. *)
Theorem accepted_receiver_can_pause :
  forall (r : FileTransferInstance) (a : DialogAnswer)
         (rest later : list DialogAnswer),
    direction r = RECEIVING -> remotePaused r = false ->
    isEmpty (chosen a) = false -> opens a = true ->
    let r' := object_of (acceptRecvRequest (a :: rest) r) in
    rightBtnImg r' = pauseFileButton
    /\ pressFromHtml "btnB" later r'
       = Returned r' [Core_pauseResumeFileRecv (friendId r) (fileNum r); stateUpdated]
    /\ savePath (object_of (pressFromHtml "btnB" later r')) = chosen a.
Proof.
  intros r a rest later Hd Hr He Ho. cbv zeta.
  unfold acceptRecvRequest. cbn [choosePath]. rewrite He.
  unfold isFileWritable. rewrite Ho. run_action.
  unfold rightBtnImg, stateButton, pressFromHtml, pauseResumeRecv, returned.
  cbn. rewrite Hd, Hr. cbn. repeat split.
Qed.

Lemma accepted_receiver_can_pause_witness :
  let r' := object_of (acceptRecvRequest [writable_answer] sample_receiver) in
  rightBtnImg r' = pauseFileButton
  /\ pressFromHtml "btnB" [] r'
     = Returned r' [Core_pauseResumeFileRecv 7 5; stateUpdated].
Proof.
  intros r'.
  destruct (accepted_receiver_can_pause sample_receiver writable_answer [] []
              eq_refl eq_refl eq_refl eq_refl) as [H1 [H2 _]].
  split; [exact H1 | exact H2].
Defined.
